(** * Dawn Patrol: the scoring core of the morning-activity advisor

    A shallow embedding of the scoring functions of the Dawn Patrol
    application (the immediately-invoked function of the main script):
    [degreesToCardinal], [formatLocalDate], [getMorningHourIndex],
    [calculateSurfScore], [calculatePhotoScore], [calculateCycleScore],
    [getRecommendation] and [getNoaaTideInfo].

    Conventions of the embedding.
    - A JavaScript number is an exact rational ([Q]) or [NaN]; the
      infinities and the rounding of binary floating point are not
      modelled.  [Math.round] is [floor (x + 1/2)].
    - An array element read from a forecast payload is a number, [null]
      or [undefined] (the latter is what an out-of-range index yields).
    - A property read on [undefined] or [null] throws a [TypeError]; code
      that can throw lives in the [outcome] monad.
    - What the host supplies (the [Date] constructor, the clock behind
      [getTomorrowDate], [Number.prototype.toFixed]) is a parameter of the
      section that holds the scorers.
    - Strings are sequences of 8-bit characters. *)

From Stdlib Require Import ZArith QArith Qround Qabs Bool List String Ascii.
From Stdlib Require Import Lia Lqa Permutation Sorted DecimalString.
Import ListNotations.

Local Open Scope string_scope.
Local Open Scope Z_scope.

(** ** JavaScript values *)

(** The result of a computation that may throw. *)
Inductive outcome (A : Type) : Type :=
| Return (a : A)
| Throw (e : string).
Arguments Return {A} a.
Arguments Throw {A} e.

Definition bind {A B : Type} (c : outcome A) (k : A -> outcome B) : outcome B :=
  match c with
  | Return a => k a
  | Throw e => Throw e
  end.

Notation "x <- c ;; k" := (bind c (fun x => k))
  (at level 61, c at next level, right associativity).

Definition TypeError : string := "TypeError".

(** [o.p] where [o] may be [undefined] or [null]: reading a property of a
    missing object throws. *)
Definition prop {A B : Type} (o : option A) (p : A -> B) : outcome B :=
  match o with
  | Some a => Return (p a)
  | None => Throw TypeError
  end.

(** The receiver of a member access ([a.length], [a[i]]) where [a] may be
    [undefined]. *)
Definition deref {A : Type} (o : option A) : outcome A :=
  match o with
  | Some a => Return a
  | None => Throw TypeError
  end.

(** A number: a finite value or [NaN]. *)
Inductive num : Type :=
| Fin (q : Q)
| NaN.

(** An element of a payload array. *)
Inductive jsval : Type :=
| JNum (q : Q)
| JNull
| JUndef.

(** [ToNumber]: [null] is 0, [undefined] is [NaN]. *)
Definition toNumber (v : jsval) : num :=
  match v with
  | JNum q => Fin q
  | JNull => Fin 0
  | JUndef => NaN
  end.

(** [v || d] for a numeric default [d]: a non-zero number is kept, the
    falsy values (0, [null], [undefined]) give way to [d]. *)
Definition orElse (v : jsval) (d : Q) : Q :=
  match v with
  | JNum q => if Qeq_bool q 0 then d else q
  | JNull | JUndef => d
  end.

(** [a[i]]: [undefined] outside the array. *)
Definition index {A : Type} (a : list A) (i : Z) : option A :=
  if i <? 0 then None else nth_error a (Z.to_nat i).

Definition at_ (a : list jsval) (i : Z) : jsval :=
  match index a i with
  | Some v => v
  | None => JUndef
  end.

(** Comparisons: every comparison with [NaN] is false. *)
Definition Qltb (x y : Q) : bool := negb (Qle_bool y x).

Definition numLt (x : num) (y : Q) : bool :=
  match x with Fin q => Qltb q y | NaN => false end.
Definition numLe (x : num) (y : Q) : bool :=
  match x with Fin q => Qle_bool q y | NaN => false end.
Definition numGt (x : num) (y : Q) : bool :=
  match x with Fin q => Qltb y q | NaN => false end.
Definition numGe (x : num) (y : Q) : bool :=
  match x with Fin q => Qle_bool y q | NaN => false end.

(** [Math.round]: the nearest integer, halves towards plus infinity. *)
Definition round (q : Q) : Z := Qfloor (q + (1 # 2)).

Definition roundNum (x : num) : num :=
  match x with Fin q => Fin (inject_Z (round q)) | NaN => NaN end.

(** [x % y] on numbers: the remainder has the sign of the dividend. *)
Definition Qtrunc (q : Q) : Z := Z.quot (Qnum q) (Zpos (Qden q)).
Definition Qrem (x y : Q) : Q := x - y * inject_Z (Qtrunc (x / y)).

(** [String(n)] for an integer. *)
Definition ZtoString (z : Z) : string := NilEmpty.string_of_int (Z.to_int z).

(** [String(n)] for an integer or [NaN]. *)
Definition intToString (n : option Z) : string :=
  match n with Some z => ZtoString z | None => "NaN" end.

(** [s.padStart(2, '0')]. *)
Definition padStart2 (s : string) : string :=
  match String.length s with
  | O => "00"
  | S O => "0" ++ s
  | _ => s
  end.

(** [parts.join(sep)]. *)
Fixpoint join (sep : string) (parts : list string) : string :=
  match parts with
  | [] => ""
  | [p] => p
  | p :: rest => p ++ sep ++ join sep rest
  end.

(** ** Utility functions *)

(** What the scorers read of a [Date]: its local calendar fields ([None]
    stands for the [NaN] of an invalid date). *)
Record JsDate : Type := mkDate {
  getFullYear : option Z;
  getMonth : option Z;
  getDate : option Z;
  getHours : option Z
}.

Definition formatLocalDate (date : JsDate) : string :=
  let year := intToString (getFullYear date) in
  let month := padStart2 (intToString (option_map (fun m => m + 1) (getMonth date))) in
  let day := padStart2 (intToString (getDate date)) in
  year ++ "-" ++ month ++ "-" ++ day.

Definition directions : list string :=
  ["N"; "NNE"; "NE"; "ENE"; "E"; "ESE"; "SE"; "SSE";
   "S"; "SSW"; "SW"; "WSW"; "W"; "WNW"; "NW"; "NNW"].

(** [Math.round(degrees / 22.5) % 16], for a finite [degrees].  The
    quotient is exact here, where the source rounds it to a double: the
    properties of this index are stated for degrees of magnitude at most
    10^9, where that rounding does not carry the quotient across a
    half. *)
Definition cardinalIndex (degrees : Q) : Z :=
  Z.rem (round (degrees / (45 # 2))) 16.

(** [None] is the [undefined] of an index outside [directions]. *)
Definition degreesToCardinal (degrees : num) : option string :=
  match degrees with
  | Fin d => index directions (cardinalIndex d)
  | NaN => None
  end.

Definition morningStartHour : Z := 6.
Definition morningEndHour : Z := 9.

Definition hourBetween (hour : option Z) (lo hi : Z) : bool :=
  match hour with
  | Some h => (lo <=? h) && (h <=? hi)
  | None => false
  end.

(** ** Forecast payloads

    Every field of a payload may be missing ([None] is [undefined]). *)

Module Marine.
Record Hourly : Type := mkHourly {
    time : option (list string);
    wave_height : option (list jsval);
    wave_period : option (list jsval);
    wave_direction : option (list jsval);
    swell_wave_height : option (list jsval);
    swell_wave_period : option (list jsval);
    swell_wave_direction : option (list jsval)
  }.
Record Data : Type := mkData { hourly : option Hourly }.
End Marine.

Module Weather.
Record Hourly : Type := mkHourly {
    time : option (list string);
    temperature_2m : option (list jsval);
    relative_humidity_2m : option (list jsval);
    cloud_cover : option (list jsval);
    wind_speed_10m : option (list jsval);
    wind_direction_10m : option (list jsval);
    weather_code : option (list jsval)
  }.
Record Data : Type := mkData { hourly : option Hourly }.
End Weather.

(** [a || []]. *)
Definition orEmpty (a : option (list jsval)) : list jsval :=
  match a with Some l => l | None => [] end.

(** ** Score results

    A field that a return statement leaves out is [None]. *)

Module Surf.
Record Result : Type := mkResult {
    score : Z;
    details : string;
    waveHeight : option Q;
    period : option Q;
    direction : option Q;
    heightScore : option Z;
    periodScore : option Z;
    windScore : option Z
  }.
Definition noData (msg : string) : Result :=
    mkResult 0 msg None None None None None None.
End Surf.

Module Photo.
Record Result : Type := mkResult {
    score : Z;
    details : option string;
    verdict : string;
    cloudCover : jsval;
    humidity : option Q
  }.
End Photo.

Module Cycle.
Record Result : Type := mkResult {
    score : Z;
    details : option string;
    windSpeed : option num;
    windDirection : option num;
    windCardinal : option string;
    temp : option num;
    direction : option string;
    directionText : option string
  }.
End Cycle.

(** A NOAA tide prediction, as in
    [{ t: "2024-02-27 06:32", v: "4.123", type: "H" }], and an entry of
    the list the formatter builds. *)
Module Tide.
Record Prediction : Type := mkPrediction {
  t : string;
  v : string;
  type : string
}.
Record Morning : Type := mkMorning {
  mtype : string;
  mtime : string
}.
End Tide.

(** ** The scorers *)

Section Scorers.

(** [new Date(s)], read through the local-time getters. *)
Variable newDate : string -> JsDate.

(** The [Date] that [getTomorrowDate] builds from the clock: now, moved
    one day ahead by [setDate]. *)
Variable tomorrowDate : JsDate.

(** [x.toFixed(1)]. *)
Variable toFixed1 : Q -> string.

Definition getTomorrowDate : string := formatLocalDate tomorrowDate.

(** The loop of [getMorningHourIndex], entered at position [i]. *)
Fixpoint morningLoop (hourlyTimes : list string) (targetDate : string) (i : Z) : Z :=
  match hourlyTimes with
  | [] => -1
  | t :: rest =>
      let time := newDate t in
      let dateStr := formatLocalDate time in
      let hour := getHours time in
      if (dateStr =? targetDate)%string
         && hourBetween hour morningStartHour morningEndHour
      then i
      else morningLoop rest targetDate (i + 1)
  end.

(** [hourlyTimes.length] throws when the array is missing. *)
Definition getMorningHourIndex (hourlyTimes : option (list string))
    (targetDate : string) : outcome Z :=
  times <- deref hourlyTimes ;;
  Return (morningLoop times targetDate 0).

Definition surfHeightScore (waveHeight : Q) : Z :=
  if Qltb waveHeight 1 then 1
  else if Qltb waveHeight 2 then 3
  else if Qltb waveHeight 3 then 5
  else if Qltb waveHeight 4 then 7
  else if Qltb waveHeight 5 then 9
  else if Qltb waveHeight 6 then 10
  else if Qltb waveHeight 8 then 8
  else 6.

Definition surfPeriodScore (period : Q) : Z :=
  if Qltb period 5 then 2
  else if Qltb period 7 then 4
  else if Qltb period 9 then 6
  else if Qltb period 11 then 8
  else 10.

Definition surfWindClass (windSpeed windDir : Q) : Z :=
  let isOffshore := Qle_bool 250 windDir && Qle_bool windDir 320 in
  let isLightWind := Qltb windSpeed 8 in
  if isOffshore && isLightWind then 10
  else if isOffshore then 8
  else if isLightWind then 7
  else if Qltb windSpeed 15 then 4
  else 2.

(** The wind sub-score: 5 unless the weather payload has a morning hour. *)
Definition surfWindScore (weatherData : option Weather.Data)
    (tomorrow : string) : outcome Z :=
  match weatherData with
  | None => Return 5
  | Some wd =>
      match Weather.hourly wd with
      | None => Return 5
      | Some wh =>
          wxIndex <- getMorningHourIndex (Weather.time wh) tomorrow ;;
          if wxIndex =? -1 then Return 5
          else
            speeds <- deref (Weather.wind_speed_10m wh) ;;
            let windSpeed := orElse (at_ speeds wxIndex) 0 in
            dirs <- deref (Weather.wind_direction_10m wh) ;;
            let windDir := orElse (at_ dirs wxIndex) 0 in
            Return (surfWindClass windSpeed windDir)
      end
  end.

(** [Math.round(h * 0.4 + p * 0.3 + w * 0.3)]. *)
Definition weighted (a b c : Z) : Z :=
  round (inject_Z a * (4 # 10) + inject_Z b * (3 # 10) + inject_Z c * (3 # 10)).

(** [Math.min(10, Math.max(1, finalScore))]. *)
Definition clamp (finalScore : Z) : Z := Z.min 10 (Z.max 1 finalScore).

Definition cardinalText (c : option string) : string :=
  match c with Some s => s | None => "undefined" end.

Definition calculateSurfScore (marineData : option Marine.Data)
    (weatherData : option Weather.Data) : outcome Surf.Result :=
  match marineData with
  | None => Return (Surf.noData "No data available")
  | Some md =>
  match Marine.hourly md with
  | None => Return (Surf.noData "No data available")
  | Some mh =>
      let tomorrow := getTomorrowDate in
      let waveHeights := orEmpty (Marine.wave_height mh) in
      let wavePeriods := orEmpty (Marine.wave_period mh) in
      let waveDirections := orEmpty (Marine.wave_direction mh) in
      let swellHeights := orEmpty (Marine.swell_wave_height mh) in
      let swellPeriods := orEmpty (Marine.swell_wave_period mh) in
      let swellDirections := orEmpty (Marine.swell_wave_direction mh) in
      times <- deref (Marine.time mh) ;;
      let morningIndex := morningLoop times tomorrow 0 in
      if morningIndex =? -1 then Return (Surf.noData "No forecast data")
      else
        let waveHeight := orElse (at_ waveHeights morningIndex) 0 in
        let swellHeight := orElse (at_ swellHeights morningIndex) waveHeight in
        let period :=
          orElse (at_ swellPeriods morningIndex)
                 (orElse (at_ wavePeriods morningIndex) 0) in
        let direction :=
          orElse (at_ swellDirections morningIndex)
                 (orElse (at_ waveDirections morningIndex) 0) in
        let heightScore := surfHeightScore waveHeight in
        let periodScore := surfPeriodScore period in
        windScore <- surfWindScore weatherData tomorrow ;;
        let finalScore := weighted heightScore periodScore windScore in
        let heightStr := toFixed1 waveHeight ++ "ft" in
        let periodStr :=
          if Qltb 0 period then ZtoString (round period) ++ "s" else "" in
        let dirStr := cardinalText (degreesToCardinal (Fin direction)) in
        Return (Surf.mkResult
                  (clamp finalScore)
                  (heightStr ++ " @ " ++ periodStr ++ " " ++ dirStr)
                  (Some waveHeight) (Some period) (Some direction)
                  (Some heightScore) (Some periodScore) (Some windScore))
  end
  end.

(** The cloud-cover bands of the photo scorer: the score and the verdict.
    Inside the first band the cover is a finite number, since no
    comparison with [NaN] holds. *)
Definition photoBand (cloudCover : num) : Z * string :=
  if numGe cloudCover 20 && numLe cloudCover 60 then
    (match cloudCover with
     | Fin c => 8 + round ((40 - Qabs (c - 40)) / 20)
     | NaN => 8
     end,
     "Good cloud cover for colorful sunrise")
  else if numGe cloudCover 10 && numLt cloudCover 20 then
    (6, "Light clouds - some color potential")
  else if numGt cloudCover 60 && numLe cloudCover 80 then
    (5, "Heavy clouds - may get some color")
  else if numLt cloudCover 10 then
    (4, "Clear sky - pretty but no cloud color")
  else
    (2, "Overcast - unlikely to see color").

(** The second argument of the source, [sunriseData], is never read and
    is left out. *)
Definition calculatePhotoScore (weather : option Weather.Data)
    : outcome Photo.Result :=
  let tomorrow := getTomorrowDate in
  hourly <- prop weather Weather.hourly ;;
  times <- prop hourly Weather.time ;;
  hourIndex <- getMorningHourIndex times tomorrow ;;
  if hourIndex =? -1 then
    Return (Photo.mkResult 0 (Some "No data") "No data available" (JNum 0) None)
  else
    covers <- prop hourly Weather.cloud_cover ;;
    covers <- deref covers ;;
    let cloudCover := at_ covers hourIndex in
    humidities <- prop hourly Weather.relative_humidity_2m ;;
    let humidity :=
      match humidities with
      | Some hs => orElse (at_ hs hourIndex) 50
      | None => 50%Q
      end in
    let '(score, verdict) := photoBand (toNumber cloudCover) in
    Return (Photo.mkResult score None verdict cloudCover (Some humidity)).

Definition cycleWindScore (windSpeed : num) : Z :=
  if numLt windSpeed 8 then 10
  else if numLt windSpeed 12 then 8
  else if numLe windSpeed 15 then 5
  else 1.

Definition cycleWeatherScore (weatherCode : num) : Z :=
  if numLe weatherCode 3 then 10
  else if numLe weatherCode 49 then 7
  else if numLe weatherCode 59 then 3
  else 0.

Definition cycleTempScore (temp : num) : Z :=
  if numGe temp 55 && numLe temp 75 then 10
  else if (numGe temp 45 && numLt temp 55) || (numGt temp 75 && numLe temp 85)
  then 7
  else 3.

(** [((windDirection % 360) + 360) % 360].  The sum is exact here, where
    the source rounds it to a double: the properties of the normalised
    direction are stated for whole numbers of degrees, on which every
    step is exact. *)
Definition normalizeDir (windDirection : num) : num :=
  match windDirection with
  | Fin d => Fin (Qrem (Qrem d 360 + 360) 360)
  | NaN => NaN
  end.

(** The loop direction: the tag and the text shown with it. *)
Definition cycleDirection (normalizedDir : num) : string * string :=
  if numGe normalizedDir 315 || numLe normalizedDir 45 then
    ("ac", "Go to Atlantic City first, wind at your back coming home")
  else if numGe normalizedDir 135 && numLe normalizedDir 225 then
    ("longport", "Go to Longport first, wind at your back coming home")
  else
    ("either", "Wind is cross-shore, either direction works").

Definition calculateCycleScore (weather : option Weather.Data)
    : outcome Cycle.Result :=
  let tomorrow := getTomorrowDate in
  hourly <- prop weather Weather.hourly ;;
  times <- prop hourly Weather.time ;;
  hourIndex <- getMorningHourIndex times tomorrow ;;
  if hourIndex =? -1 then
    Return (Cycle.mkResult 0 (Some "No data") None None None None None None)
  else
    speeds <- prop hourly Weather.wind_speed_10m ;;
    speeds <- deref speeds ;;
    let windSpeed := toNumber (at_ speeds hourIndex) in
    dirs <- prop hourly Weather.wind_direction_10m ;;
    dirs <- deref dirs ;;
    let windDirection := toNumber (at_ dirs hourIndex) in
    temps <- prop hourly Weather.temperature_2m ;;
    temps <- deref temps ;;
    let temp := toNumber (at_ temps hourIndex) in
    codes <- prop hourly Weather.weather_code ;;
    codes <- deref codes ;;
    let weatherCode := toNumber (at_ codes hourIndex) in
    let windScore := cycleWindScore windSpeed in
    let weatherScore := cycleWeatherScore weatherCode in
    let tempScore := cycleTempScore temp in
    let finalScore := weighted windScore weatherScore tempScore in
    let normalizedDir := normalizeDir windDirection in
    let '(direction, directionText) := cycleDirection normalizedDir in
    Return (Cycle.mkResult
              (clamp finalScore)
              None
              (Some (roundNum windSpeed))
              (Some normalizedDir)
              (degreesToCardinal normalizedDir)
              (Some (roundNum temp))
              (Some direction)
              (Some directionText)).

(** ** The recommendation arbiter *)

Inductive ActivityName : Type := surf | photo | cycle.

Record Activity : Type := mkActivity {
  name : ActivityName;
  actScore : Z;
  label : string
}.

Record Scores : Type := mkScores {
  surfOf : Z;
  photoOf : Z;
  cycleOf : Z
}.

Record Recommendation : Type := mkRecommendation {
  activity : string;
  detail : string;
  icon : string
}.

(** [Array.prototype.sort] with a comparator: a stable sort.  [x] goes in
    front of the first element it does not compare greater than, so equal
    elements keep the order they came in. *)
Fixpoint insertBy {A : Type} (cmp : A -> A -> Z) (x : A) (l : list A) : list A :=
  match l with
  | [] => [x]
  | y :: rest => if cmp x y <=? 0 then x :: l else y :: insertBy cmp x rest
  end.

Fixpoint sortBy {A : Type} (cmp : A -> A -> Z) (l : list A) : list A :=
  match l with
  | [] => []
  | x :: rest => insertBy cmp x (sortBy cmp rest)
  end.

(** [(a, b) => b.score - a.score]. *)
Definition byScoreDesc (a b : Activity) : Z := actScore b - actScore a.

Definition activitiesOf (scores : Scores) : list Activity :=
  [ mkActivity surf (surfOf scores) "GO SURF";
    mkActivity photo (photoOf scores) "SUNRISE PHOTOS";
    mkActivity cycle (cycleOf scores) "GO CYCLING" ].

(** [activities] once [sort] has run. *)
Definition ranked (scores : Scores) : list Activity :=
  sortBy byScoreDesc (activitiesOf scores).

Definition icons (n : ActivityName) : string :=
  match n with
  | surf => "&#127940;"
  | photo => "&#128247;"
  | cycle => "&#128690;"
  end.

Definition isName (a b : ActivityName) : bool :=
  match a, b with
  | surf, surf | photo, photo | cycle, cycle => true
  | _, _ => false
  end.

(** A string is truthy unless it is missing or empty. *)
Definition truthy (s : option string) : bool :=
  match s with
  | Some EmptyString | None => false
  | Some _ => true
  end.

Definition textOf (s : option string) : string :=
  match s with Some x => x | None => "" end.

Definition sleepIn : Recommendation :=
  mkRecommendation "SLEEP IN" "Nothing looks great tomorrow" "&#128564;".

(** [surfScoreData] may be missing (the source tests it); [cycleData] is
    read without a test and is an object. *)
Definition getRecommendation (scores : Scores)
    (surfScoreData : option Surf.Result) (cycleData : Cycle.Result)
    : outcome Recommendation :=
  let activities := ranked scores in
  best <- deref (index activities 0) ;;
  let detail :=
    match isName (name best) surf, surfScoreData with
    | true, Some sd => Surf.details sd
    | _, _ =>
        if isName (name best) cycle && truthy (Cycle.directionText cycleData)
        then textOf (Cycle.directionText cycleData)
        else if isName (name best) photo
        then "Get up early and find your spot"
        else ""
    end in
  if actScore best <? 4 then Return sleepIn
  else Return (mkRecommendation (label best) detail (icons (name best))).

(** ** The tide formatter *)

(** [s.split(sep)] for a one-character separator. *)
Fixpoint split (sep : ascii) (s : string) : list string :=
  match s with
  | EmptyString => [EmptyString]
  | String c rest =>
      if Ascii.eqb c sep then EmptyString :: split sep rest
      else match split sep rest with
           | first :: others => String c first :: others
           | [] => [String c EmptyString]
           end
  end.

(** The white space that [parseInt] skips, as far as 8-bit characters
    go: tab, line feed, vertical tab, form feed, carriage return and
    space. *)
Definition isWhiteSpace (c : ascii) : bool :=
  let n := N_of_ascii c in
  ((9 <=? n) && (n <=? 13) || (n =? 32))%N.

Definition digitOf (c : ascii) : option Z :=
  let n := Z.of_N (N_of_ascii c) in
  if (48 <=? n) && (n <=? 57) then Some (n - 48) else None.

Fixpoint skipWhite (s : string) : string :=
  match s with
  | String c rest => if isWhiteSpace c then skipWhite rest else s
  | EmptyString => s
  end.

(** The value of the longest prefix of decimal digits, [None] when the
    string does not begin with a digit. *)
Fixpoint digitsPrefix (s : string) (acc : option Z) : option Z :=
  match s with
  | String c rest =>
      match digitOf c with
      | Some d =>
          digitsPrefix rest (Some (10 * match acc with Some a => a | None => 0 end + d))
      | None => acc
      end
  | EmptyString => acc
  end.

(** [parseInt(s, 10)]; [None] is [NaN], and a missing argument reads as
    the string "undefined". *)
Definition parseInt10 (s : option string) : option Z :=
  match skipWhite (match s with Some x => x | None => "undefined" end) with
  | String "-" rest => option_map Z.opp (digitsPrefix rest None)
  | String "+" rest => digitsPrefix rest None
  | body => digitsPrefix body None
  end.

(** One turn of the loop of [getNoaaTideInfo]: the entry to push, if
    any. *)
Definition tideStep (tomorrow : string) (pred : Tide.Prediction)
    : outcome (option Tide.Morning) :=
  if negb (Tide.type pred =? "H")%string && negb (Tide.type pred =? "L")%string
  then Return None
  else
    let parts := split " " (Tide.t pred) in
    let dateStr := index parts 0 in
    let timeStr := index parts 1 in
    match dateStr with
    | Some d =>
        if (d =? tomorrow)%string then
          fields <- prop timeStr (split ":") ;;
          let hour := parseInt10 (index fields 0) in
          if hourBetween hour 4 12 then
            let h := index fields 0 in
            let m := index fields 1 in
            let hourNum := parseInt10 h in
            match hourNum with
            | Some hn =>
                let ampm := if 12 <=? hn then "PM" else "AM" in
                let hour12 :=
                  if 12 <? hn then hn - 12 else if hn =? 0 then 12 else hn in
                Return (Some (Tide.mkMorning (Tide.type pred)
                  (ZtoString hour12 ++ ":"
                   ++ match m with Some x => x | None => "undefined" end
                   ++ " " ++ ampm)))
            | None => Return None
            end
          else Return None
        else Return None
    | None => Return None
    end.

(** The [for ... of] loop, with [morningTides] as an accumulator that
    grows at its end. *)
Fixpoint tideLoop (tomorrow : string) (predictions : list Tide.Prediction)
    (morningTides : list Tide.Morning) : outcome (list Tide.Morning) :=
  match predictions with
  | [] => Return morningTides
  | pred :: rest =>
      entry <- tideStep tomorrow pred ;;
      tideLoop tomorrow rest
        match entry with
        | Some e => morningTides ++ [e]
        | None => morningTides
        end
  end.

Definition renderTide (e : Tide.Morning) : string :=
  Tide.mtype e ++ " " ++ Tide.mtime e.

Definition getNoaaTideInfo (predictions : option (list Tide.Prediction))
    : outcome string :=
  match predictions with
  | None | Some [] => Return "--"
  | Some preds =>
      let tomorrow := getTomorrowDate in
      morningTides <- tideLoop tomorrow preds [] ;;
      match morningTides with
      | [] => Return "--"
      | _ => Return (join ", " (map renderTide morningTides))
      end
  end.

End Scorers.

(** ** The rest of the application

    The run that fills the shared state, the score colour of a card and
    the two formatters of Surfline tide data. *)

Module App.
(** The fields of the shared [state] object that [calculateAllScores]
    reads or writes. *)
Record State : Type := mkState {
  weather : option Weather.Data;
  sunrise : option string;
  marineData : option Marine.Data;
  scores : Scores;
  recommendation : option Recommendation;
  surfScoreData : option Surf.Result;
  photoData : option Photo.Result;
  cycleData : option Cycle.Result
}.
End App.

Module Surfline.
(** An entry of [surfData.tides.data.tides]. *)
Record Tide : Type := mkTide {
  type : string;
  timestamp : jsval;
  height : option Q
}.
Record TidesData : Type := mkTidesData { tides : option (list Tide) }.
Record TidesBlock : Type := mkTidesBlock { data : option TidesData }.
Record SurfData : Type := mkSurfData { tidesBlock : option TidesBlock }.
(** What the long formatter pushes. *)
Record Morning : Type := mkMorning {
  mtype : string;
  mtime : string;
  mheight : string
}.
End Surfline.

Section Application.

Variable newDate : string -> JsDate.
Variable tomorrowDate : JsDate.
Variable toFixed1 : Q -> string.

(** [new Date(ms)] for a number of milliseconds, and [formatTime] of that
    date. *)
Variable newDateMs : num -> JsDate.
Variable formatTimeMs : num -> string.

(** [calculateAllScores]: the state it leaves, and whether it threw.  The
    fields are written one scorer at a time, so a throw leaves the
    earlier writes in place. *)
Definition calculateAllScores (state : App.State) : App.State * outcome unit :=
  match calculateSurfScore newDate tomorrowDate toFixed1
          (App.marineData state) (App.weather state) with
  | Throw e => (state, Throw e)
  | Return surfScoreData =>
  let state1 :=
    App.mkState (App.weather state) (App.sunrise state) (App.marineData state)
      (mkScores (Surf.score surfScoreData)
                (photoOf (App.scores state)) (cycleOf (App.scores state)))
      (App.recommendation state)
      (Some surfScoreData) (App.photoData state) (App.cycleData state) in
  match calculatePhotoScore newDate tomorrowDate (App.weather state1) with
  | Throw e => (state1, Throw e)
  | Return photoData =>
  let state2 :=
    App.mkState (App.weather state1) (App.sunrise state1)
      (App.marineData state1)
      (mkScores (surfOf (App.scores state1))
                (Photo.score photoData) (cycleOf (App.scores state1)))
      (App.recommendation state1)
      (App.surfScoreData state1) (Some photoData) (App.cycleData state1) in
  match calculateCycleScore newDate tomorrowDate (App.weather state2) with
  | Throw e => (state2, Throw e)
  | Return cycleData =>
  let state3 :=
    App.mkState (App.weather state2) (App.sunrise state2)
      (App.marineData state2)
      (mkScores (surfOf (App.scores state2))
                (photoOf (App.scores state2)) (Cycle.score cycleData))
      (App.recommendation state2)
      (App.surfScoreData state2) (App.photoData state2) (Some cycleData) in
  match getRecommendation (App.scores state3) (Some surfScoreData) cycleData with
  | Throw e => (state3, Throw e)
  | Return rec =>
      (App.mkState (App.weather state3) (App.sunrise state3)
         (App.marineData state3) (App.scores state3) (Some rec)
         (App.surfScoreData state3) (App.photoData state3)
         (App.cycleData state3),
       Return tt)
  end
  end
  end
  end.

(** [classList.remove(...tokens)] and [classList.add(token)] on the
    ordered token set of an element. *)
Definition classRemove (tokens classList : list string) : list string :=
  filter (fun c => negb (existsb (String.eqb c) tokens)) classList.

Definition classAdd (token : string) (classList : list string) : list string :=
  if existsb (String.eqb token) classList then classList
  else (classList ++ [token])%list.

(** [updateScoreColor], on the class list of the card. *)
Definition updateScoreColor (classList : list string) (score : Z) : list string :=
  let classList := classRemove ["score-low"; "score-medium"; "score-high"] classList in
  if 7 <=? score then classAdd "score-high" classList
  else if 5 <=? score then classAdd "score-medium" classList
  else classAdd "score-low" classList.

(** [surfData.tides.data.tides], when every level is there. *)
Definition surflineTides (surfData : option Surfline.SurfData)
    : option (list Surfline.Tide) :=
  match surfData with
  | Some sd =>
      match Surfline.tidesBlock sd with
      | Some tb =>
          match Surfline.data tb with
          | Some d => Surfline.tides d
          | None => None
          end
      | None => None
      end
  | None => None
  end.

(** [tide.timestamp * 1000]. *)
Definition millis (timestamp : jsval) : num :=
  match toNumber timestamp with
  | Fin q => Fin (q * 1000)
  | NaN => NaN
  end.

(** The test both Surfline loops make on an entry that is a high or a
    low. *)
Definition surflineMorning (tomorrow : string) (tide : Surfline.Tide) : bool :=
  let tideDate := newDateMs (millis (Surfline.timestamp tide)) in
  let dateStr := formatLocalDate tideDate in
  let hour := getHours tideDate in
  (dateStr =? tomorrow)%string && hourBetween hour 4 12.

Fixpoint tideInfoLoop (tomorrow : string) (tides : list Surfline.Tide)
    (morningTides : list Surfline.Morning) : list Surfline.Morning :=
  match tides with
  | [] => morningTides
  | tide :: rest =>
      if negb (Surfline.type tide =? "HIGH")%string
         && negb (Surfline.type tide =? "LOW")%string
      then tideInfoLoop tomorrow rest morningTides
      else if surflineMorning tomorrow tide then
        tideInfoLoop tomorrow rest
          (morningTides ++
           [Surfline.mkMorning
              (if (Surfline.type tide =? "HIGH")%string then "High" else "Low")
              (formatTimeMs (millis (Surfline.timestamp tide)))
              match Surfline.height tide with
              | Some h => toFixed1 h
              | None => "--"
              end])%list
      else tideInfoLoop tomorrow rest morningTides
  end.

Definition getTideInfo (surfData : option Surfline.SurfData) : string :=
  match surflineTides surfData with
  | None => "Tide data unavailable"
  | Some tides =>
      let tomorrow := getTomorrowDate tomorrowDate in
      match tideInfoLoop tomorrow tides [] with
      | [] => "Check tide times"
      | morningTides =>
          join " | "
            (map (fun t => Surfline.mtype t ++ ": " ++ Surfline.mtime t)
                 morningTides)
      end
  end.

Fixpoint shortTideLoop (tomorrow : string) (tides : list Surfline.Tide)
    (morningTides : list Tide.Morning) : list Tide.Morning :=
  match tides with
  | [] => morningTides
  | tide :: rest =>
      if negb (Surfline.type tide =? "HIGH")%string
         && negb (Surfline.type tide =? "LOW")%string
      then shortTideLoop tomorrow rest morningTides
      else if surflineMorning tomorrow tide then
        shortTideLoop tomorrow rest
          (morningTides ++
           [Tide.mkMorning
              (if (Surfline.type tide =? "HIGH")%string then "H" else "L")
              (formatTimeMs (millis (Surfline.timestamp tide)))])%list
      else shortTideLoop tomorrow rest morningTides
  end.

Definition getShortTideInfo (surfData : option Surfline.SurfData) : string :=
  match surflineTides surfData with
  | None => "--"
  | Some tides =>
      let tomorrow := getTomorrowDate tomorrowDate in
      match shortTideLoop tomorrow tides [] with
      | [] => "--"
      | morningTides => join ", " (map renderTide morningTides)
      end
  end.

End Application.

(** ** The service worker

    The cache storage is an ordered list of named caches, a cache an
    ordered list of request URLs with their responses; requests are GET
    requests, matched by URL.  A handler is read one event at a time: it
    maps the storage to the reply given to [respondWith] and to the
    storage once the writes it started have settled. *)

Module Worker.

Definition CACHE_NAME : string := "dawn-patrol-v5".

(** [event.request]: its URL and the host name [new URL] reads in it. *)
Record Request : Type := mkRequest {
  url : string;
  hostname : string
}.

Record Response : Type := mkResponse {
  status : Z;
  body : string
}.

(** [response.ok]: a status from 200 to 299. *)
Definition ok (response : Response) : bool :=
  (200 <=? status response) && (status response <=? 299).

Definition Cache : Type := list (string * Response).
Definition CacheStorage : Type := list (string * Cache).

(** [cache.match(request)]. *)
Fixpoint cacheMatch (cache : Cache) (u : string) : option Response :=
  match cache with
  | [] => None
  | (u', response) :: rest =>
      if (u' =? u)%string then Some response else cacheMatch rest u
  end.

(** [cache.put(request, response)]: the entry of the request is
    replaced, or a new one is added. *)
Fixpoint cachePut (cache : Cache) (u : string) (response : Response) : Cache :=
  match cache with
  | [] => [(u, response)]
  | (u', old) :: rest =>
      if (u' =? u)%string then (u', response) :: rest
      else (u', old) :: cachePut rest u response
  end.

(** [caches.match(request)]: the first cache, in the order of creation,
    that has the request. *)
Fixpoint storageMatch (caches : CacheStorage) (u : string) : option Response :=
  match caches with
  | [] => None
  | (_, cache) :: rest =>
      match cacheMatch cache u with
      | Some response => Some response
      | None => storageMatch rest u
      end
  end.

(** [caches.open(name).then(cache => cache.put(request, response))]: the
    cache is created when there is none of that name. *)
Fixpoint putIn (caches : CacheStorage) (cacheName u : string)
    (response : Response) : CacheStorage :=
  match caches with
  | [] => [(cacheName, [(u, response)])]
  | (n, cache) :: rest =>
      if (n =? cacheName)%string then (n, cachePut cache u response) :: rest
      else (n, cache) :: putIn rest cacheName u response
  end.

(** [caches.open(name)] alone: the cache is created, empty, when there is
    none of that name. *)
Definition openCache (caches : CacheStorage) (cacheName : string)
    : CacheStorage :=
  if existsb (fun entry => (fst entry =? cacheName)%string) caches
  then caches
  else (caches ++ [(cacheName, [])])%list.

(** [caches.keys()] and [caches.delete(name)]. *)
Definition keys (caches : CacheStorage) : list string := map fst caches.

Definition delete (caches : CacheStorage) (cacheName : string) : CacheStorage :=
  filter (fun entry => negb (fst entry =? cacheName)%string) caches.

(** The [activate] handler: every cache whose name is not [CACHE_NAME]
    is deleted. *)
Definition onActivate (caches : CacheStorage) : CacheStorage :=
  let cacheNames := keys caches in
  fold_left delete
    (filter (fun name => negb (name =? CACHE_NAME)%string) cacheNames)
    caches.

(** [haystack.includes(needle)]. *)
Fixpoint includes (needle haystack : string) : bool :=
  if String.prefix needle haystack then true
  else match haystack with
       | String _ rest => includes needle rest
       | EmptyString => false
       end.

(** The test of the [fetch] handler for a call that goes to the network
    first. *)
Definition isApiCall (host : string) : bool :=
  includes "api" host
  || includes "services.surfline.com" host
  || includes "open-meteo.com" host
  || includes "marine-api.open-meteo.com" host
  || includes "tidesandcurrents.noaa.gov" host
  || includes "sunrise-sunset.org" host.

(** What [respondWith] is given: a promise that resolves, with a response
    or with [undefined], or one that rejects. *)
Inductive Reply : Type :=
| Resolved (response : option Response)
| Rejected.

(** The [fetch] handler.  [network u] is what [fetch] of the request
    gives, [None] when it rejects.  [cache.put] rejects a response of
    status 206, which is ok: the cache is opened and nothing is
    written. *)
Definition onFetch (network : string -> option Response)
    (caches : CacheStorage) (request : Request) : Reply * CacheStorage :=
  if isApiCall (hostname request) then
    match network (url request) with
    | Some response =>
        (Resolved (Some response),
         if ok response
         then
           if status response =? 206
           then openCache caches (CACHE_NAME ++ "-api")
           else putIn caches (CACHE_NAME ++ "-api") (url request) response
         else caches)
    | None => (Resolved (storageMatch caches (url request)), caches)
    end
  else
    match storageMatch caches (url request) with
    | Some response => (Resolved (Some response), caches)
    | None =>
        match network (url request) with
        | Some response =>
            if negb (status response =? 200)
            then (Resolved (Some response), caches)
            else (Resolved (Some response),
                  putIn caches CACHE_NAME (url request) response)
        | None => (Rejected, caches)
        end
    end.

End Worker.

(** ** A sample host

    A concrete reading of the host parameters, used to run the scorers on
    example payloads: timestamps in the Open-Meteo form
    [YYYY-MM-DDTHH:MM], read as local time. *)

Definition fieldAt (s : string) (start len : nat) : option Z :=
  digitsPrefix (substring start len s) None.

Definition isoNewDate (s : string) : JsDate :=
  mkDate (fieldAt s 0 4)
         (option_map (fun m => m - 1) (fieldAt s 5 2))
         (fieldAt s 8 2)
         (fieldAt s 11 2).

(** One decimal, halves away from zero. *)
Definition decimalToFixed1 (x : Q) : string :=
  let n := round (Qabs x * 10) in
  (if Qltb x 0 then "-" else "")
  ++ ZtoString (n / 10) ++ "." ++ ZtoString (n mod 10).

(** The day after 26 February 2024. *)
Definition feb27 : JsDate := mkDate (Some 2024) (Some 1) (Some 27) (Some 0).

(** ** The specification's wording

    Definitions that follow the prose of the specification, to be
    compared with the functions above. *)

(** The icon as a function of the activity label alone. *)
Definition iconOfLabel (l : string) : string :=
  if (l =? "GO SURF")%string then "&#127940;"
  else if (l =? "SUNRISE PHOTOS")%string then "&#128247;"
  else if (l =? "GO CYCLING")%string then "&#128690;"
  else "&#128564;".

Definition activityLabels : list string :=
  ["GO SURF"; "SUNRISE PHOTOS"; "GO CYCLING"; "SLEEP IN"].

(** The activity that wins the ranking: the best score, the earlier of
    surf, photo, cycle on a tie. *)
Definition winner (scores : Scores) : ActivityName :=
  if (photoOf scores <=? surfOf scores) && (cycleOf scores <=? surfOf scores)
  then surf
  else if cycleOf scores <=? photoOf scores then photo
  else cycle.

(** The label the arbiter shows for an activity. *)
Definition labelOf (n : ActivityName) : string :=
  match n with
  | surf => "GO SURF"
  | photo => "SUNRISE PHOTOS"
  | cycle => "GO CYCLING"
  end.

(** Descending order of score, and the activities of one score. *)
Definition scoreGe (a b : Activity) : Prop := actScore b <= actScore a.

Definition hasScore (k : Z) (a : Activity) : bool := actScore a =? k.

(** The score inside the good-cloud band, as the formula states it. *)
Definition photoFormula (c : Q) : Z := 8 + round ((40 - Qabs (c - 40)) / 20).

(** The date, the hour and the minutes of a tide prediction, read off its
    ["YYYY-MM-DD HH:MM"] text. *)
Definition eventDate (p : Tide.Prediction) : option string :=
  index (split " " (Tide.t p)) 0.

Definition eventClock (p : Tide.Prediction) : list string :=
  match index (split " " (Tide.t p)) 1 with
  | Some clock => split ":" clock
  | None => []
  end.

Definition eventHour (p : Tide.Prediction) : option Z :=
  parseInt10 (index (eventClock p) 0).

Definition eventMinutes (p : Tide.Prediction) : string :=
  match index (eventClock p) 1 with Some m => m | None => "undefined" end.

(** The events the formatter keeps: a high or a low, on the target date,
    at an hour between 4 and 12. *)
Definition tideKept (target : string) (p : Tide.Prediction) : bool :=
  ((Tide.type p =? "H") || (Tide.type p =? "L"))%string
  && match eventDate p with
     | Some d => (d =? target)%string
     | None => false
     end
  && hourBetween (eventHour p) 4 12.

(** The 12-hour rendering of a kept event: the type, the time, a space
    and the half of the day. *)
Definition tideText (p : Tide.Prediction) : string :=
  let hour := match eventHour p with Some h => h | None => 0 end in
  Tide.type p ++ " "
  ++ ZtoString (if 12 <? hour then hour - 12 else if hour =? 0 then 12 else hour)
  ++ ":" ++ eventMinutes p ++ " "
  ++ (if 12 <=? hour then "PM" else "AM").

Definition tideSummary (target : string) (predictions : list Tide.Prediction)
    : string :=
  match map tideText (filter (tideKept target) predictions) with
  | [] => "--"
  | texts => join ", " texts
  end.

(** A prediction whose text has a second, space-separated part. *)
Definition hasClock (p : Tide.Prediction) : Prop :=
  index (split " " (Tide.t p)) 1 <> None.

(** A timestamp of the morning window: on the target date, at a local
    hour from 6 to 9. *)
Definition isMorning (newDate : string -> JsDate) (target t : string) : bool :=
  (formatLocalDate (newDate t) =? target)%string
  && hourBetween (getHours (newDate t)) 6 9.

(** The three score classes of a card. *)
Definition isScoreClass (c : string) : bool :=
  (c =? "score-low")%string || (c =? "score-medium")%string
  || (c =? "score-high")%string.

(** The greatest of the three scores. *)
Definition bestScore (scores : Scores) : Z :=
  Z.max (surfOf scores) (Z.max (photoOf scores) (cycleOf scores)).

(** A Surfline entry that the tide formatters keep. *)
Definition surflineKept (newDateMs : num -> JsDate) (target : string)
    (tide : Surfline.Tide) : bool :=
  ((Surfline.type tide =? "HIGH") || (Surfline.type tide =? "LOW"))%string
  && surflineMorning newDateMs target tide.

(** A weather payload with a morning hour and the four series that the
    cycle scorer indexes. *)
Definition cycleReadable (newDate : string -> JsDate) (tomorrowDate : JsDate)
    (w : Weather.Data) (h : Weather.Hourly)
    (times : list string) (speeds dirs temps codes : list jsval) : Prop :=
  Weather.hourly w = Some h /\ Weather.time h = Some times
  /\ morningLoop newDate times (getTomorrowDate tomorrowDate) 0 <> -1
  /\ Weather.wind_speed_10m h = Some speeds
  /\ Weather.wind_direction_10m h = Some dirs
  /\ Weather.temperature_2m h = Some temps
  /\ Weather.weather_code h = Some codes.

(** The class that goes with a score. *)
Definition scoreClassOf (score : Z) : string :=
  if 7 <=? score then "score-high"
  else if 5 <=? score then "score-medium"
  else "score-low".

(** The long and the short text of a kept Surfline entry. *)
Definition surflineLongText (formatTimeMs : num -> string)
    (tide : Surfline.Tide) : string :=
  (if (Surfline.type tide =? "HIGH")%string then "High" else "Low")
  ++ ": " ++ formatTimeMs (millis (Surfline.timestamp tide)).

Definition surflineShortText (formatTimeMs : num -> string)
    (tide : Surfline.Tide) : string :=
  (if (Surfline.type tide =? "HIGH")%string then "H" else "L")
  ++ " " ++ formatTimeMs (millis (Surfline.timestamp tide)).

(** The name of the cache that holds API responses. *)
Definition apiCacheName : string := "dawn-patrol-v5-api".

(** ** Example payloads *)

(** A high at 5:45, a low at 11:50 and a high at 14:00 on the target
    date. *)
Definition tideExample : list Tide.Prediction :=
  [ Tide.mkPrediction "2024-02-27 05:45" "4.123" "H";
    Tide.mkPrediction "2024-02-27 11:50" "0.212" "L";
    Tide.mkPrediction "2024-02-27 14:00" "3.987" "H" ].

(** A two-hour marine payload whose second hour is the morning hour, with
    the given wave and swell heights there, a wave period of 9 s and no
    swell period. *)
Definition marineWith (wave swell : jsval) : Marine.Data :=
  Marine.mkData (Some (Marine.mkHourly
    (Some ["2024-02-27T05:00"; "2024-02-27T06:00"])
    (Some [JNum 1; wave])
    (Some [JNum 8; JNum 9])
    (Some [JNum 90; JNum 100])
    (Some [JNum 1; swell])
    None
    (Some [JNull; JNum 110]))).

(** The payload that the forecast URL of the application asks for: it
    names no [weather_code] series. *)
Definition weatherAsRequested : Weather.Data :=
  Weather.mkData (Some (Weather.mkHourly
    (Some ["2024-02-27T05:00"; "2024-02-27T06:00"])
    (Some [JNum 58; JNum 60])
    (Some [JNum 70; JNum 65])
    (Some [JNum 0; JNum 40])
    (Some [JNum 10; JNum 6])
    (Some [JNum 0; JNum 270])
    None)).

(** A two-hour weather payload whose second hour, 06:00 on the target
    date, is the morning hour: wind of 6 mph from 270 degrees, 60 degrees
    Fahrenheit, and the given cloud cover. *)
Definition weatherWithCloud (cloud : jsval) : Weather.Data :=
  Weather.mkData (Some (Weather.mkHourly
    (Some ["2024-02-27T05:00"; "2024-02-27T06:00"])
    (Some [JNum 58; JNum 60])
    (Some [JNum 70; JNum 65])
    (Some [JNum 0; cloud])
    (Some [JNum 10; JNum 6])
    (Some [JNum 0; JNum 270])
    (Some [JNum 0; JNum 1]))).

(** A weather payload whose series, the time array apart, stop before the
    morning hour. *)
Definition weatherShortSeries : Weather.Data :=
  Weather.mkData (Some (Weather.mkHourly
    (Some ["2024-02-27T05:00"; "2024-02-27T06:00"])
    (Some [JNum 58])
    (Some [JNum 70])
    (Some [JNum 0])
    (Some [JNum 10])
    (Some [JNum 0])
    (Some [JNum 0]))).

(** A payload whose forecast stops short of the target date. *)
Definition weatherOfToday : Weather.Data :=
  Weather.mkData (Some (Weather.mkHourly
    (Some ["2024-02-26T06:00"; "2024-02-26T07:00"])
    None None None None None None)).

(** The shared state as [loadAllData] hands it to [calculateAllScores] on
    a first run: the fetched payloads, and the initial scores. *)
Definition loadedState (weather : option Weather.Data)
    (marineData : option Marine.Data) : App.State :=
  App.mkState weather None marineData (mkScores 0 0 0) None None None None.

(** A series that holds no morning hour of the target date, or is not
    there to be read. *)
Definition marineWithoutMorning (newDate : string -> JsDate)
    (tomorrowDate : JsDate) (marineData : option Marine.Data) : Prop :=
  match marineData with
  | Some md =>
      match Marine.hourly md with
      | Some mh =>
          exists times,
            Marine.time mh = Some times
            /\ morningLoop newDate times (getTomorrowDate tomorrowDate) 0 = -1
      | None => True
      end
  | None => True
  end.

Definition weatherWithoutMorning (newDate : string -> JsDate)
    (tomorrowDate : JsDate) (weather : option Weather.Data) : Prop :=
  exists w h times,
    weather = Some w /\ Weather.hourly w = Some h
    /\ Weather.time h = Some times
    /\ morningLoop newDate times (getTomorrowDate tomorrowDate) 0 = -1.

(** Surfline tide data with a high and a reading that is neither a high
    nor a low, and a host clock on which every instant is 6:00 on the
    target date. *)
Definition surflineExample : option Surfline.SurfData :=
  Some (Surfline.mkSurfData (Some (Surfline.mkTidesBlock (Some
    (Surfline.mkTidesData (Some
       [Surfline.mkTide "HIGH" (JNum 1709031600) (Some (41 # 10));
        Surfline.mkTide "NORMAL" (JNum 1709035200) None])))))).

Definition sixOClock (ms : num) : JsDate :=
  mkDate (Some 2024) (Some 1) (Some 27) (Some 6).

(** A call to the weather API and a request for a static asset, with a
    response of status 200, a network that answers every request with it
    and a network that is down. *)
Definition apiRequest : Worker.Request :=
  Worker.mkRequest "https://api.open-meteo.com/v1/ecmwf" "api.open-meteo.com".

Definition assetRequest : Worker.Request :=
  Worker.mkRequest "https://dawn-patrol.example/style.css" "dawn-patrol.example".

Definition okResponse : Worker.Response := Worker.mkResponse 200 "body".

Definition online (u : string) : option Worker.Response := Some okResponse.

Definition offline (u : string) : option Worker.Response := None.

(** * Properties *)

(** ** Numbers and arrays *)

Lemma Qltb_true (x y : Q) : Qltb x y = true <-> (x < y)%Q.
Proof.
  unfold Qltb. rewrite negb_true_iff.
  split; intros H.
  - apply Qnot_le_lt. intros L. apply Qle_bool_iff in L. congruence.
  - destruct (Qle_bool y x) eqn:E; [| reflexivity].
    apply Qle_bool_iff in E. exfalso. exact (Qlt_not_le _ _ H E).
Qed.

Lemma Qltb_false (x y : Q) : Qltb x y = false <-> (y <= x)%Q.
Proof.
  unfold Qltb. rewrite negb_false_iff. apply Qle_bool_iff.
Qed.

Lemma Qle_bool_false (x y : Q) : Qle_bool x y = false <-> (y < x)%Q.
Proof.
  split; intros H.
  - apply Qnot_le_lt. intros L. apply Qle_bool_iff in L. congruence.
  - destruct (Qle_bool x y) eqn:E; [| reflexivity].
    apply Qle_bool_iff in E. exfalso. exact (Qlt_not_le _ _ H E).
Qed.

(** Turns the boolean comparisons of a goal and its hypotheses into
    rational inequalities. *)
Ltac qbool :=
  repeat match goal with
  | H : Qltb _ _ = true |- _ => apply Qltb_true in H
  | H : Qltb _ _ = false |- _ => apply Qltb_false in H
  | H : Qle_bool _ _ = true |- _ => apply Qle_bool_iff in H
  | H : Qle_bool _ _ = false |- _ => apply Qle_bool_false in H
  | |- Qltb _ _ = true => apply Qltb_true
  | |- Qltb _ _ = false => apply Qltb_false
  | |- Qle_bool _ _ = true => apply Qle_bool_iff
  | |- Qle_bool _ _ = false => apply Qle_bool_false
  end.

Lemma Qfloor_unique (q : Q) (z : Z) :
  (inject_Z z <= q)%Q -> (q < inject_Z z + 1)%Q -> Qfloor q = z.
Proof.
  intros H1 H2.
  pose proof (Qfloor_le q) as F1. pose proof (Qlt_floor q) as F2.
  assert (inject_Z z < inject_Z (Qfloor q + 1))%Q as A by lra.
  assert (inject_Z (Qfloor q) < inject_Z (z + 1))%Q as B
    by (rewrite inject_Z_plus; change (inject_Z 1) with 1%Q; lra).
  rewrite <- Zlt_Qlt in A, B. lia.
Qed.

Lemma round_bounds (q : Q) :
  (inject_Z (round q) <= q + (1 # 2))%Q
  /\ (q + (1 # 2) < inject_Z (round q) + 1)%Q.
Proof.
  unfold round. split.
  - apply Qfloor_le.
  - pose proof (Qlt_floor (q + (1 # 2))) as F.
    rewrite inject_Z_plus in F. exact F.
Qed.

Lemma round_unique (q : Q) (z : Z) :
  (inject_Z z <= q + (1 # 2))%Q -> (q + (1 # 2) < inject_Z z + 1)%Q ->
  round q = z.
Proof. intros; unfold round; now apply Qfloor_unique. Qed.

Lemma round_comp (q q' : Q) : (q == q')%Q -> round q = round q'.
Proof. intros E. unfold round. now rewrite E. Qed.

Lemma round_shift (q : Q) (k : Z) : round (q + inject_Z k) = round q + k.
Proof.
  destruct (round_bounds q) as [L U].
  apply round_unique; rewrite inject_Z_plus; lra.
Qed.

Lemma index_negative {A : Type} (l : list A) (i : Z) :
  i < 0 -> index l i = None.
Proof. intros H. unfold index. now apply Z.ltb_lt in H as ->. Qed.

Lemma index_in_range {A : Type} (l : list A) (i : Z) :
  0 <= i < Z.of_nat (List.length l) ->
  exists x, index l i = Some x /\ In x l.
Proof.
  intros [H0 H1]. unfold index.
  destruct (i <? 0) eqn:E; [apply Z.ltb_lt in E; lia |].
  destruct (nth_error l (Z.to_nat i)) as [x |] eqn:N.
  - exists x. split; [reflexivity | eapply nth_error_In; eauto].
  - apply nth_error_None in N. lia.
Qed.

(** ** The cardinal labels *)

Lemma cardinal_arg (d : Q) : (d / (45 # 2) == d * (2 # 45))%Q.
Proof. reflexivity. Qed.

Lemma round_cardinal_nonneg (d : Q) :
  (- (45 # 4) <= d)%Q -> 0 <= round (d / (45 # 2)).
Proof.
  intros H. destruct (round_bounds (d / (45 # 2))) as [_ U].
  set (r := round (d / (45 # 2))) in *. rewrite cardinal_arg in U.
  assert (inject_Z (-1) < inject_Z r)%Q as A
    by (change (inject_Z (-1)) with (-1)%Q; lra).
  rewrite <- Zlt_Qlt in A. lia.
Qed.

Lemma round_cardinal_negative (d : Q) :
  (d < - (45 # 4))%Q -> round (d / (45 # 2)) < 0.
Proof.
  intros H. destruct (round_bounds (d / (45 # 2))) as [L _].
  set (r := round (d / (45 # 2))) in *. rewrite cardinal_arg in L.
  assert (inject_Z r < inject_Z 0)%Q as A
    by (change (inject_Z 0) with 0%Q; lra).
  rewrite <- Zlt_Qlt in A. exact A.
Qed.

Lemma round_cardinal_turn (d : Q) :
  round ((d + 360) / (45 # 2)) = round (d / (45 # 2)) + 16.
Proof.
  rewrite <- round_shift. apply round_comp.
  change (inject_Z 16) with 16%Q. field.
Qed.

(** C9, as the code has it, for degrees of magnitude at most 10^9, where
    the quotient by 22.5 is computed without a rounding that matters.
    [degreesToCardinal] returns one of the 16 labels for every such value
    greater than -11.25, and for every whole number of degrees
    [0 <= d <= 10^9] the label of [d + 360] is the label of [d].  Below
    -11.25 the rounded quotient is negative: the function returns
    [undefined], except where that quotient is a multiple of 16 (as at
    -360), where the index is zero and the label is N.  At -90 the
    result is [undefined]. *)
Theorem degreesToCardinal_labels (d : Q) (z : Z) :
  ((- (45 # 4) < d)%Q -> (d <= 1000000000)%Q ->
     exists l, In l directions /\ degreesToCardinal (Fin d) = Some l)
  /\ (0 <= z <= 1000000000 ->
     degreesToCardinal (Fin (inject_Z z + 360))
     = degreesToCardinal (Fin (inject_Z z)))
  /\ ((- 1000000000 <= d)%Q -> (d < - (45 # 4))%Q ->
     round (d / (45 # 2)) < 0
     /\ degreesToCardinal (Fin d)
        = if Z.rem (round (d / (45 # 2))) 16 =? 0 then Some "N" else None)
  /\ degreesToCardinal (Fin (-90)) = None.
Proof.
  split; [| split; [| split]].
  - intros H _. cbn [degreesToCardinal]. unfold cardinalIndex.
    assert (0 <= round (d / (45 # 2))) as R
      by (apply round_cardinal_nonneg; lra).
    destruct (index_in_range directions (Z.rem (round (d / (45 # 2))) 16))
      as (l & E & I).
    + rewrite Z.rem_mod_nonneg by lia.
      change (Z.of_nat (List.length directions)) with 16.
      apply Z.mod_pos_bound. lia.
    + exists l. split; assumption.
  - intros [H _]. cbn [degreesToCardinal]. unfold cardinalIndex.
    rewrite round_cardinal_turn.
    assert (0 <= round (inject_Z z / (45 # 2))) as R.
    { apply round_cardinal_nonneg. rewrite Zle_Qle in H.
      change (inject_Z 0) with 0%Q in H. lra. }
    rewrite !Z.rem_mod_nonneg by lia.
    replace (round (inject_Z z / (45 # 2)) + 16)
      with (round (inject_Z z / (45 # 2)) + 1 * 16) by lia.
    now rewrite Z_mod_plus_full.
  - intros _ H. pose proof (round_cardinal_negative d H) as R.
    split; [exact R |].
    cbn [degreesToCardinal]. unfold cardinalIndex.
    destruct (Z.rem (round (d / (45 # 2))) 16 =? 0) eqn:E.
    + apply Z.eqb_eq in E. rewrite E. reflexivity.
    + apply Z.eqb_neq in E. apply index_negative.
      pose proof (Z.rem_nonpos (round (d / (45 # 2))) 16). lia.
  - reflexivity.
Qed.

Lemma degreesToCardinal_labels_witness :
  ((- (45 # 4) < 45)%Q
   /\ exists l, In l directions /\ degreesToCardinal (Fin 45) = Some l)
  /\ (0 <= 45 <= 1000000000
      /\ degreesToCardinal (Fin (inject_Z 45 + 360))
         = degreesToCardinal (Fin (inject_Z 45)))
  /\ ((-100 < - (45 # 4))%Q /\ degreesToCardinal (Fin (-100)) = None).
Proof.
  destruct (degreesToCardinal_labels 45 45) as (A & B & _).
  destruct (degreesToCardinal_labels (-100) 0) as (_ & _ & C & _).
  split; [| split].
  - split; [reflexivity | apply A; [reflexivity | discriminate]].
  - split; [split; discriminate | apply B; split; discriminate].
  - split; [reflexivity |].
    destruct C as [_ C]; [discriminate | reflexivity |]. exact C.
Defined.

(** C9 as it was stated fails below -11.25: at -360 the index is zero,
    not negative, and the result is the label N. *)
Lemma degreesToCardinal_minus_360 :
  ~ (forall d : Q, (d < - (45 # 4))%Q ->
       cardinalIndex d < 0 /\ degreesToCardinal (Fin d) = None).
Proof.
  intros H. destruct (H (-360)%Q) as [_ E]; [reflexivity |].
  discriminate E.
Qed.

(** ** The ranking *)

Section Sorting.

Context {A : Type}.
Variable cmp : A -> A -> Z.

Lemma insertBy_perm (x : A) (l : list A) :
  Permutation (insertBy cmp x l) (x :: l).
Proof.
  induction l as [| y l IH]; cbn.
  - apply Permutation_refl.
  - destruct (cmp x y <=? 0).
    + apply Permutation_refl.
    + eapply perm_trans; [apply perm_skip, IH | apply perm_swap].
Qed.

Lemma sortBy_perm (l : list A) : Permutation (sortBy cmp l) l.
Proof.
  induction l as [| x l IH]; cbn.
  - apply perm_nil.
  - eapply perm_trans; [apply insertBy_perm | now apply perm_skip].
Qed.

End Sorting.

Lemma insertBy_sorted (x : Activity) (l : list Activity) :
  StronglySorted scoreGe l -> StronglySorted scoreGe (insertBy byScoreDesc x l).
Proof.
  induction 1 as [| y l S IH F]; cbn.
  - repeat constructor.
  - unfold byScoreDesc at 1. destruct (Z.leb_spec (actScore y - actScore x) 0).
    + constructor; [now constructor |].
      constructor; [unfold scoreGe; lia |].
      eapply Forall_impl; [| exact F]. unfold scoreGe. intros; lia.
    + constructor; [exact IH |].
      eapply Permutation_Forall; [symmetry; apply insertBy_perm |].
      constructor; [unfold scoreGe; lia | exact F].
Qed.

Lemma sortBy_sorted (l : list Activity) :
  StronglySorted scoreGe (sortBy byScoreDesc l).
Proof.
  induction l as [| x l IH]; cbn; [constructor | now apply insertBy_sorted].
Qed.

(** Stability: the activities of any one score stand in the sorted list
    in the order they had before. *)
Lemma insertBy_stable (k : Z) (x : Activity) (l : list Activity) :
  filter (hasScore k) (insertBy byScoreDesc x l) = filter (hasScore k) (x :: l).
Proof.
  induction l as [| y l IH]; [reflexivity |].
  cbn [insertBy]. unfold byScoreDesc at 1.
  destruct (Z.leb_spec (actScore y - actScore x) 0) as [L | G];
    [reflexivity |].
  cbn [filter] in *. rewrite IH.
  destruct (hasScore k y) eqn:Ey, (hasScore k x) eqn:Ex; try reflexivity.
  unfold hasScore in Ey, Ex. lia.
Qed.

Lemma sortBy_stable (k : Z) (l : list Activity) :
  filter (hasScore k) (sortBy byScoreDesc l) = filter (hasScore k) l.
Proof.
  induction l as [| x l IH]; [reflexivity |].
  cbn [sortBy]. rewrite insertBy_stable. cbn [filter]. now rewrite IH.
Qed.

(** The head of the ranking, by cases on the three scores. *)
Lemma ranked_head (scores : Scores) :
  exists rest,
    ranked scores
    = match winner scores with
      | surf => mkActivity surf (surfOf scores) "GO SURF"
      | photo => mkActivity photo (photoOf scores) "SUNRISE PHOTOS"
      | cycle => mkActivity cycle (cycleOf scores) "GO CYCLING"
      end :: rest.
Proof.
  destruct scores as [s p c]. unfold ranked, winner, activitiesOf, byScoreDesc.
  cbn.
  repeat match goal with
  | |- context [?a <=? ?b] => destruct (Z.leb_spec a b); cbn
  end; try lia; eexists; reflexivity.
Qed.

(** ** The recommendation *)

(** What [getRecommendation] returns, by the winner of the ranking. *)
Lemma getRecommendation_cases (scores : Scores)
    (surfScoreData : option Surf.Result) (cycleData : Cycle.Result) :
  exists best rest,
    ranked scores = best :: rest
    /\ name best = winner scores
    /\ In best (activitiesOf scores)
    /\ getRecommendation scores surfScoreData cycleData
       = if actScore best <? 4 then Return sleepIn
         else Return (mkRecommendation (label best)
                (match name best with
                 | surf =>
                     match surfScoreData with
                     | Some sd => Surf.details sd
                     | None => ""
                     end
                 | cycle =>
                     if truthy (Cycle.directionText cycleData)
                     then textOf (Cycle.directionText cycleData)
                     else ""
                 | photo => "Get up early and find your spot"
                 end)
                (icons (name best))).
Proof.
  destruct (ranked_head scores) as [rest E].
  eexists. exists rest. split; [exact E |].
  unfold getRecommendation. rewrite E. cbn [index Z.ltb Z.compare Z.to_nat nth_error deref bind].
  destruct (winner scores); cbn [name actScore label isName andb icons];
    (split; [reflexivity |]); (split; [cbn; auto |]);
    destruct (_ <? 4); try reflexivity; now destruct surfScoreData.
Qed.

(** C7.  The arbiter's ranking is a stable sort by score, descending: it
    is a permutation of surf, photo, cycle, no score is followed by a
    greater one, activities of equal score keep the input order, and so
    the head is the first of surf, photo, cycle to reach the best score.
    [getRecommendation] recommends that head: unless the best score is
    below 4, the activity and the icon it returns are those of the
    winner.  For surf 7, photo 7, cycle 5 it returns GO SURF. *)
Theorem ranking_is_stable_descending (scores : Scores)
    (surfScoreData : option Surf.Result) (cycleData : Cycle.Result) :
  Permutation (ranked scores) (activitiesOf scores)
  /\ StronglySorted scoreGe (ranked scores)
  /\ (forall k, filter (hasScore k) (ranked scores)
                = filter (hasScore k) (activitiesOf scores))
  /\ option_map name (index (ranked scores) 0) = Some (winner scores)
  /\ (exists r,
        getRecommendation scores surfScoreData cycleData = Return r
        /\ activity r
           = (if bestScore scores <? 4 then "SLEEP IN"
              else labelOf (winner scores))
        /\ icon r
           = (if bestScore scores <? 4 then "&#128564;"
              else icons (winner scores)))
  /\ (exists r,
        getRecommendation (mkScores 7 7 5) surfScoreData cycleData = Return r
        /\ activity r = "GO SURF").
Proof.
  split; [apply sortBy_perm |].
  split; [apply sortBy_sorted |].
  split; [intros k; apply sortBy_stable |].
  split; [destruct (ranked_head scores) as [rest ->];
          now destruct (winner scores) |].
  split.
  - destruct (getRecommendation_cases scores surfScoreData cycleData)
      as (best & rest & E & N & I & ->).
    destruct (ranked_head scores) as (rest' & E').
    rewrite E in E'. injection E' as -> _.
    destruct scores as [s p c]. unfold winner, bestScore.
    cbn [surfOf photoOf cycleOf].
    destruct (Z.leb_spec p s), (Z.leb_spec c s), (Z.leb_spec c p);
      cbn [andb name actScore label icons labelOf];
      match goal with
      | |- context [Z.max ?a ?b <? 4] => destruct (Z.ltb_spec (Z.max a b) 4)
      end;
      match goal with
      | |- context [if ?a <? 4 then Return sleepIn else _] =>
          destruct (Z.ltb_spec a 4)
      end;
      try lia; eexists; (split; [reflexivity |]); split; reflexivity.
  - destruct (getRecommendation_cases (mkScores 7 7 5) surfScoreData cycleData)
      as (best & rest & E & _ & _ & ->).
    cbn in E. injection E as <- _.
    eexists. split; reflexivity.
Qed.

(** C6.  When the greatest of the three scores is below 4 the arbiter
    returns the sleep-in recommendation, with its fixed detail and icon,
    whichever activity ranks first; so it does for surf 3, photo 2,
    cycle 1. *)
Theorem low_scores_sleep_in (scores : Scores)
    (surfScoreData : option Surf.Result) (cycleData : Cycle.Result) :
  Z.max (surfOf scores) (Z.max (photoOf scores) (cycleOf scores)) < 4 ->
  getRecommendation scores surfScoreData cycleData
  = Return (mkRecommendation "SLEEP IN" "Nothing looks great tomorrow"
                             "&#128564;")
  /\ getRecommendation (mkScores 3 2 1) surfScoreData cycleData
     = Return (mkRecommendation "SLEEP IN" "Nothing looks great tomorrow"
                                "&#128564;").
Proof.
  intros H. split.
  - destruct (getRecommendation_cases scores surfScoreData cycleData)
      as (best & rest & _ & _ & I & ->).
    assert (actScore best < 4) as L.
    { destruct scores as [s p c]. cbn in *.
      destruct I as [<- | [<- | [<- | []]]]; cbn; lia. }
    apply Z.ltb_lt in L. now rewrite L.
  - destruct (getRecommendation_cases (mkScores 3 2 1) surfScoreData cycleData)
      as (best & rest & E & _ & _ & ->).
    cbn in E. injection E as <- _. reflexivity.
Qed.

Lemma low_scores_sleep_in_witness :
  Z.max 2 (Z.max 3 0) < 4
  /\ getRecommendation (mkScores 2 3 0) None
       (Cycle.mkResult 0 (Some "No data") None None None None None None)
     = Return sleepIn.
Proof.
  split; [reflexivity |].
  apply (low_scores_sleep_in (mkScores 2 3 0)). reflexivity.
Defined.

(** C10.  The arbiter always returns, and the activity label it returns
    is one of GO SURF, SUNRISE PHOTOS, GO CYCLING and SLEEP IN; the icon
    is [iconOfLabel] of that label; and when photo heads the ranking
    with a score of at least 4 the label is SUNRISE PHOTOS and the detail
    is exactly "Get up early and find your spot". *)
Theorem recommendation_labels (scores : Scores)
    (surfScoreData : option Surf.Result) (cycleData : Cycle.Result) :
  exists r,
    getRecommendation scores surfScoreData cycleData = Return r
    /\ In (activity r) activityLabels
    /\ icon r = iconOfLabel (activity r)
    /\ (option_map name (index (ranked scores) 0) = Some photo ->
        4 <= photoOf scores ->
        activity r = "SUNRISE PHOTOS"
        /\ detail r = "Get up early and find your spot").
Proof.
  destruct (getRecommendation_cases scores surfScoreData cycleData)
    as (best & rest & E & N & I & ->).
  rewrite E. cbn [index Z.ltb Z.compare Z.to_nat nth_error option_map].
  destruct scores as [s p c]. cbn [photoOf].
  destruct I as [<- | [<- | [<- | []]]]; cbn [name actScore label icons];
    match goal with
    | |- context [?a <? 4] => destruct (Z.ltb_spec a 4)
    end;
    eexists; (split; [reflexivity |]); cbn [activity icon detail];
    (split; [cbn; tauto |]); (split; [reflexivity |]);
    intros W G; try discriminate W;
    cbn [surfOf photoOf cycleOf] in *; try lia; split; reflexivity.
Qed.

Lemma recommendation_labels_witness :
  exists r,
    getRecommendation (mkScores 2 8 5) None
      (Cycle.mkResult 5 None None None None None None None) = Return r
    /\ activity r = "SUNRISE PHOTOS"
    /\ detail r = "Get up early and find your spot".
Proof.
  destruct (recommendation_labels (mkScores 2 8 5) None
              (Cycle.mkResult 5 None None None None None None None))
    as (r & E & _ & _ & P).
  exists r. split; [exact E |]. apply P; [reflexivity | discriminate].
Defined.

(** ** The tide formatter *)

Lemma tideStep_kept (target : string) (p : Tide.Prediction) :
  hasClock p ->
  exists entry,
    tideStep target p = Return entry
    /\ option_map renderTide entry
       = if tideKept target p then Some (tideText p) else None.
Proof.
  unfold hasClock, tideStep, tideKept, tideText, eventHour, eventMinutes,
    eventClock, eventDate.
  intros C.
  destruct (Tide.type p =? "H")%string, (Tide.type p =? "L")%string;
    cbn [negb andb orb];
    try (destruct (index (split " " (Tide.t p)) 0) as [d |];
         [ destruct (d =? target)%string | ];
         cbn [andb];
         try (eexists; split; reflexivity);
         destruct (index (split " " (Tide.t p)) 1) as [clock |];
         [ | congruence ];
         cbn [prop bind];
         destruct (parseInt10 (index (split ":" clock) 0)) as [h |];
         cbn [hourBetween];
         [ destruct ((4 <=? h) && (h <=? 12)) | ];
         eexists; split; reflexivity).
  eexists; split; reflexivity.
Qed.

Lemma tideLoop_kept (target : string) (predictions : list Tide.Prediction) :
  Forall hasClock predictions ->
  forall morningTides,
  exists out,
    tideLoop target predictions morningTides = Return out
    /\ map renderTide out
       = (map renderTide morningTides
          ++ map tideText (filter (tideKept target) predictions))%list.
Proof.
  induction 1 as [| p rest C _ IH]; intros acc; cbn [tideLoop filter map].
  - exists acc. now rewrite app_nil_r.
  - destruct (tideStep_kept target p C) as (entry & -> & K). cbn [bind].
    destruct (tideKept target p), entry as [e |]; try discriminate K.
    + destruct (IH (acc ++ [e])%list) as (out & -> & M).
      exists out. split; [reflexivity |].
      rewrite M, map_app, <- app_assoc. cbn in K |- *. congruence.
    + destruct (IH acc) as (out & -> & M). now exists out.
Qed.

(** C5, as the code has it.  When every prediction's text has a date and
    a clock part, the formatter returns the summary of the
    specification: the events of type H or L, on the target date, at an
    hour between 4 and 12, in their source order, each rendered as the
    type, the 12-hour time, a space and AM or PM, joined with ", ", or
    "--" when none is kept.  A missing or empty list gives "--".  For the
    events at 5:45 (high), 11:50 (low) and 14:00 (high) the output is
    "H 5:45 AM, L 11:50 AM". *)
Theorem tide_formatter_summary (tomorrowDate : JsDate)
    (predictions : list Tide.Prediction) :
  Forall hasClock predictions ->
  getNoaaTideInfo tomorrowDate (Some predictions)
  = Return (tideSummary (getTomorrowDate tomorrowDate) predictions)
  /\ getNoaaTideInfo tomorrowDate None = Return "--"
  /\ getNoaaTideInfo feb27 (Some tideExample) = Return "H 5:45 AM, L 11:50 AM".
Proof.
  intros C. split; [| split; reflexivity].
  unfold getNoaaTideInfo, tideSummary.
  destruct predictions as [| p rest]; [reflexivity |].
  destruct (tideLoop_kept (getTomorrowDate tomorrowDate) (p :: rest) C [])
    as (out & -> & M).
  cbn [bind map app] in *. rewrite <- M.
  now destruct out.
Qed.

Lemma tide_formatter_summary_witness :
  Forall hasClock tideExample
  /\ getNoaaTideInfo feb27 (Some tideExample)
     = Return (tideSummary "2024-02-27" tideExample).
Proof.
  assert (Forall hasClock tideExample) as C
    by (repeat constructor; discriminate).
  split; [exact C |].
  exact (proj1 (tide_formatter_summary feb27 tideExample C)).
Defined.

(** C5 as it was stated fails on its own example: the code puts a space
    between the time and AM or PM. *)
Lemma tide_example_has_spaces :
  getNoaaTideInfo feb27 (Some tideExample) = Return "H 5:45 AM, L 11:50 AM"
  /\ getNoaaTideInfo feb27 (Some tideExample) <> Return "H 5:45AM, L 11:50AM".
Proof. split; [reflexivity | discriminate]. Qed.

(** ** The photo scorer *)

Lemma round_between (q : Q) (a b : Z) :
  (inject_Z a - (1 # 2) <= q)%Q -> (q < inject_Z b + (1 # 2))%Q ->
  a <= round q <= b.
Proof.
  intros L U. destruct (round_bounds q) as [RL RU].
  assert (inject_Z (round q) < inject_Z (b + 1))%Q as A
    by (rewrite inject_Z_plus; change (inject_Z 1) with 1%Q; lra).
  assert (inject_Z a < inject_Z (round q + 1))%Q as B
    by (rewrite inject_Z_plus; change (inject_Z 1) with 1%Q; lra).
  rewrite <- Zlt_Qlt in A, B. lia.
Qed.

Lemma band_argument (c : Q) :
  (20 <= c)%Q -> (c <= 60)%Q ->
  (1 <= (40 - Qabs (c - 40)) / 20)%Q /\ ((40 - Qabs (c - 40)) / 20 <= 2)%Q.
Proof.
  intros L U. unfold Qdiv. change (/ 20)%Q with (1 # 20)%Q.
  destruct (Qlt_le_dec (c - 40) 0).
  - rewrite Qabs_neg by lra. lra.
  - rewrite Qabs_pos by lra. lra.
Qed.

Lemma photoFormula_range (c : Q) :
  (20 <= c)%Q -> (c <= 60)%Q -> 9 <= photoFormula c <= 10.
Proof.
  intros L U. destruct (band_argument c L U) as [A B].
  pose proof (round_between ((40 - Qabs (c - 40)) / 20) 1 2) as R.
  change (inject_Z 1) with 1%Q in R. change (inject_Z 2) with 2%Q in R.
  unfold photoFormula. lapply R; [intros R' | lra].
  lapply R'; [lia | lra].
Qed.

Lemma photoFormula_comp (c c' : Q) : (c == c')%Q -> photoFormula c = photoFormula c'.
Proof.
  intros E. unfold photoFormula. f_equal. apply round_comp. now rewrite E.
Qed.

Lemma photoBand_good (c : Q) :
  (20 <= c)%Q -> (c <= 60)%Q ->
  photoBand (Fin c)
  = (photoFormula c, "Good cloud cover for colorful sunrise").
Proof.
  intros L U. unfold photoBand. cbn [numGe numLe].
  apply Qle_bool_iff in L as ->. apply Qle_bool_iff in U as ->.
  reflexivity.
Qed.

Lemma photoBand_values (x : num) :
  In (fst (photoBand x)) [2; 4; 5; 6; 9; 10].
Proof.
  unfold photoBand. destruct x as [c |]; cbn [numGe numLe numLt numGt].
  - destruct (Qle_bool 20 c) eqn:A, (Qle_bool c 60) eqn:B; cbn [andb];
      try (qbool; pose proof (photoFormula_range c A B) as R;
           unfold photoFormula in R; cbn [fst];
           assert (8 + round ((40 - Qabs (c - 40)) / 20) = 9
                   \/ 8 + round ((40 - Qabs (c - 40)) / 20) = 10) as [-> | ->]
             by lia; cbn; tauto);
      repeat match goal with
      | |- context [if ?b then _ else _] => destruct b
      end; cbn; tauto.
  - cbn. tauto.
Qed.

Section ScorerFacts.

Variable newDate : string -> JsDate.
Variable tomorrowDate : JsDate.
Variable toFixed1 : Q -> string.

Local Abbreviation tomorrow := (getTomorrowDate tomorrowDate).
Local Abbreviation morningIndexOf times := (morningLoop newDate times tomorrow 0).
Local Abbreviation surfScore := (calculateSurfScore newDate tomorrowDate toFixed1).
Local Abbreviation photoScore := (calculatePhotoScore newDate tomorrowDate).
Local Abbreviation cycleScore := (calculateCycleScore newDate tomorrowDate).

Lemma photoScore_not_found (w : Weather.Data) (h : Weather.Hourly)
    (times : list string) :
  Weather.hourly w = Some h -> Weather.time h = Some times ->
  morningIndexOf times = -1 ->
  photoScore (Some w)
  = Return (Photo.mkResult 0 (Some "No data") "No data available" (JNum 0) None).
Proof.
  clear toFixed1.
  intros H T I. unfold calculatePhotoScore, getMorningHourIndex.
  cbn [prop bind]. rewrite H. cbn [prop bind]. rewrite T. cbn [deref bind].
  rewrite I. reflexivity.
Qed.

Lemma photoScore_found (w : Weather.Data) (h : Weather.Hourly)
    (times : list string) (covers : list jsval) :
  Weather.hourly w = Some h -> Weather.time h = Some times ->
  morningIndexOf times <> -1 ->
  Weather.cloud_cover h = Some covers ->
  exists humidity,
    photoScore (Some w)
    = let cloudCover := at_ covers (morningIndexOf times) in
      let band := photoBand (toNumber cloudCover) in
      Return (Photo.mkResult (fst band) None (snd band) cloudCover
                             (Some humidity)).
Proof.
  clear toFixed1.
  intros H T I C. unfold calculatePhotoScore, getMorningHourIndex.
  cbn [prop bind]. rewrite H. cbn [prop bind]. rewrite T. cbn [deref bind].
  apply Z.eqb_neq in I. rewrite I.
  rewrite C. cbn [deref bind].
  eexists. cbv zeta. destruct (photoBand _). reflexivity.
Qed.

(** C4, as the code has it.  When the cloud cover [c] of the morning hour
    lies in [20, 60], the photo score is 8 + round((40 - |c - 40|) / 20),
    with the good-cloud verdict; it is 10 at c = 40, never above 10 and
    never below 9, and it is 9 at the band edges c = 20 and c = 60. *)
Theorem photo_score_in_good_band (w : Weather.Data) (h : Weather.Hourly)
    (times : list string) (covers : list jsval) (c : Q) :
  Weather.hourly w = Some h -> Weather.time h = Some times ->
  morningIndexOf times <> -1 ->
  Weather.cloud_cover h = Some covers ->
  at_ covers (morningIndexOf times) = JNum c ->
  (20 <= c)%Q -> (c <= 60)%Q ->
  exists r,
    photoScore (Some w) = Return r
    /\ Photo.score r = 8 + round ((40 - Qabs (c - 40)) / 20)
    /\ Photo.verdict r = "Good cloud cover for colorful sunrise"
    /\ 9 <= Photo.score r <= 10
    /\ ((c == 40)%Q -> Photo.score r = 10)
    /\ ((c == 20)%Q \/ (c == 60)%Q -> Photo.score r = 9).
Proof.
  clear toFixed1.
  intros H T I C E L U.
  destruct (photoScore_found w h times covers H T I C) as (hum & ->).
  cbv zeta. rewrite E. cbn [toNumber]. rewrite (photoBand_good c L U).
  eexists. split; [reflexivity |]. cbn [Photo.score Photo.verdict fst snd].
  split; [reflexivity |]. split; [reflexivity |].
  split; [now apply photoFormula_range |].
  split.
  - intros Q. now rewrite (photoFormula_comp c 40 Q).
  - intros [Q | Q].
    + now rewrite (photoFormula_comp c 20 Q).
    + now rewrite (photoFormula_comp c 60 Q).
Qed.

(** C8.  Whatever the weather payload, a score that the photo scorer
    returns is 0, 2, 4, 5, 6, 9 or 10 and never 8.  With the time array
    present: the score is 0 when no morning hour is found, and when one
    is found and the cloud-cover array is present the scorer returns a
    score among 2, 4, 5, 6, 9 and 10, which is 9 or 10 when the cloud
    cover of that hour lies in [20, 60]. *)
Theorem photo_score_values (weather : option Weather.Data) :
  (forall r, photoScore weather = Return r ->
     In (Photo.score r) [0; 2; 4; 5; 6; 9; 10] /\ Photo.score r <> 8)
  /\ (forall w h times,
        weather = Some w -> Weather.hourly w = Some h ->
        Weather.time h = Some times ->
        (morningIndexOf times = -1 ->
           exists r, photoScore weather = Return r /\ Photo.score r = 0)
        /\ (morningIndexOf times <> -1 ->
            forall covers, Weather.cloud_cover h = Some covers ->
            exists r, photoScore weather = Return r
                      /\ In (Photo.score r) [2; 4; 5; 6; 9; 10]
                      /\ forall c,
                           at_ covers (morningIndexOf times) = JNum c ->
                           (20 <= c)%Q -> (c <= 60)%Q ->
                           Photo.score r = 9 \/ Photo.score r = 10)).
Proof.
  clear toFixed1.
  split.
  - intros r R.
    destruct weather as [w |]; [| discriminate R].
    destruct (Weather.hourly w) as [h |] eqn:H;
      [| unfold calculatePhotoScore in R; cbn [prop bind] in R;
         rewrite H in R; discriminate R].
    destruct (Weather.time h) as [times |] eqn:T;
      [| unfold calculatePhotoScore in R; cbn [prop bind] in R;
         rewrite H in R; cbn [prop bind] in R; rewrite T in R;
         discriminate R].
    destruct (Z.eq_dec (morningIndexOf times) (-1)) as [I | I].
    + rewrite (photoScore_not_found w h times H T I) in R.
      injection R as <-. cbn. split; [tauto | lia].
    + destruct (Weather.cloud_cover h) as [covers |] eqn:C.
      * destruct (photoScore_found w h times covers H T I C) as (hum & E).
        rewrite E in R. cbv zeta in R. injection R as <-.
        cbn [Photo.score].
        pose proof (photoBand_values
                      (toNumber (at_ covers (morningIndexOf times)))) as V.
        cbn [In] in V |- *. split; [tauto | lia].
      * unfold calculatePhotoScore, getMorningHourIndex in R.
        cbn [prop bind] in R. rewrite H in R. cbn [prop bind] in R.
        rewrite T in R. cbn [deref bind] in R.
        apply Z.eqb_neq in I. rewrite I, C in R. discriminate R.
  - intros w h times -> H T. split.
    + intros I. rewrite (photoScore_not_found w h times H T I).
      eexists. split; reflexivity.
    + intros I covers C.
      destruct (photoScore_found w h times covers H T I C) as (hum & ->).
      eexists. split; [reflexivity |]. cbv zeta. cbn [Photo.score].
      split; [apply photoBand_values |].
      intros c E L U. rewrite E. cbn [toNumber].
      rewrite (photoBand_good c L U). cbn [fst].
      pose proof (photoFormula_range c L U). lia.
Qed.

(** ** The surf scorer *)

Lemma clamp_range (z : Z) : 1 <= clamp z <= 10.
Proof. unfold clamp. lia. Qed.

Lemma surfScore_found (md : Marine.Data) (mh : Marine.Hourly)
    (times : list string) (weatherData : option Weather.Data) (wind : Z) :
  Marine.hourly md = Some mh -> Marine.time mh = Some times ->
  morningIndexOf times <> -1 ->
  surfWindScore newDate weatherData tomorrow = Return wind ->
  let i := morningIndexOf times in
  let waveHeight := orElse (at_ (orEmpty (Marine.wave_height mh)) i) 0 in
  let period :=
    orElse (at_ (orEmpty (Marine.swell_wave_period mh)) i)
           (orElse (at_ (orEmpty (Marine.wave_period mh)) i) 0) in
  exists text direction,
    surfScore (Some md) weatherData
    = Return (Surf.mkResult
                (clamp (weighted (surfHeightScore waveHeight)
                                 (surfPeriodScore period) wind))
                text (Some waveHeight) (Some period) (Some direction)
                (Some (surfHeightScore waveHeight))
                (Some (surfPeriodScore period))
                (Some wind)).
Proof.
  intros H T I W. cbv zeta. unfold calculateSurfScore.
  rewrite H, T. cbn [deref bind].
  apply Z.eqb_neq in I. rewrite I, W. cbn [bind].
  eexists. eexists. reflexivity.
Qed.

Lemma surfWindScore_found (w : Weather.Data) (h : Weather.Hourly)
    (times : list string) (speeds dirs : list jsval) :
  Weather.hourly w = Some h -> Weather.time h = Some times ->
  morningIndexOf times <> -1 ->
  Weather.wind_speed_10m h = Some speeds ->
  Weather.wind_direction_10m h = Some dirs ->
  surfWindScore newDate (Some w) tomorrow
  = Return (surfWindClass (orElse (at_ speeds (morningIndexOf times)) 0)
                          (orElse (at_ dirs (morningIndexOf times)) 0)).
Proof.
  clear toFixed1.
  intros H T I S D. unfold surfWindScore, getMorningHourIndex.
  rewrite H, T. cbn [deref bind].
  apply Z.eqb_neq in I. rewrite I, S, D. reflexivity.
Qed.

Lemma orElse_eq (q : Q) : (orElse (JNum q) 0 == q)%Q.
Proof.
  cbn [orElse]. destruct (Qeq_bool q 0) eqn:E; [| reflexivity].
  apply Qeq_bool_iff in E. now rewrite E.
Qed.

Lemma surfHeightScore_3_2 (x : Q) : (x == 32 # 10)%Q -> surfHeightScore x = 7.
Proof.
  intros E. unfold surfHeightScore.
  repeat (destruct (Qltb x _) eqn:?; qbool; try lra). reflexivity.
Qed.

Lemma surfPeriodScore_9 (x : Q) : (x == 9)%Q -> surfPeriodScore x = 8.
Proof.
  intros E. unfold surfPeriodScore.
  repeat (destruct (Qltb x _) eqn:?; qbool; try lra). reflexivity.
Qed.

Lemma surfWindClass_offshore_light (speed dir : Q) :
  (speed < 8)%Q -> (250 <= dir)%Q -> (dir <= 320)%Q ->
  surfWindClass speed dir = 10.
Proof.
  intros S L U. unfold surfWindClass.
  apply Qle_bool_iff in L as ->. apply Qle_bool_iff in U as ->.
  apply Qltb_true in S as ->. reflexivity.
Qed.

(** C3, as the code has it.  For a morning wave height of 3.2 ft, a
    period of 9 s and a wind of 6 mph from a direction in [250, 320], the
    surf scorer returns height sub-score 7 (the band [3, 4)), period
    sub-score 8, wind sub-score 10 and the final score
    round(7 * 0.4 + 8 * 0.3 + 10 * 0.3) = 8. *)
Theorem surf_scenario (md : Marine.Data) (mh : Marine.Hourly)
    (w : Weather.Data) (h : Weather.Hourly)
    (times wtimes : list string) (speeds dirs : list jsval)
    (height speed dir : Q) :
  Marine.hourly md = Some mh -> Marine.time mh = Some times ->
  morningIndexOf times <> -1 ->
  at_ (orEmpty (Marine.wave_height mh)) (morningIndexOf times) = JNum height ->
  (height == 32 # 10)%Q ->
  (orElse (at_ (orEmpty (Marine.swell_wave_period mh)) (morningIndexOf times))
     (orElse (at_ (orEmpty (Marine.wave_period mh)) (morningIndexOf times)) 0)
   == 9)%Q ->
  Weather.hourly w = Some h -> Weather.time h = Some wtimes ->
  morningIndexOf wtimes <> -1 ->
  Weather.wind_speed_10m h = Some speeds ->
  at_ speeds (morningIndexOf wtimes) = JNum speed -> (speed == 6)%Q ->
  Weather.wind_direction_10m h = Some dirs ->
  at_ dirs (morningIndexOf wtimes) = JNum dir ->
  (250 <= dir)%Q -> (dir <= 320)%Q ->
  exists r,
    surfScore (Some md) (Some w) = Return r
    /\ Surf.heightScore r = Some 7
    /\ Surf.periodScore r = Some 8
    /\ Surf.windScore r = Some 10
    /\ Surf.score r = 8
    /\ round (7 * (4 # 10) + 8 * (3 # 10) + 10 * (3 # 10)) = 8.
Proof.
  intros H T I EH QH QP WH WT WI S ES QS D ED L U.
  pose proof (surfWindScore_found w h wtimes speeds dirs WH WT WI S D) as W.
  rewrite ES, ED in W.
  rewrite surfWindClass_offshore_light in W.
  - destruct (surfScore_found md mh times (Some w) 10 H T I W)
      as (text & direction & ->).
    rewrite EH. rewrite (surfHeightScore_3_2 _ (Qeq_trans _ _ _ (orElse_eq height) QH)).
    rewrite (surfPeriodScore_9 _ QP).
    eexists. split; [reflexivity |]. repeat split.
  - rewrite orElse_eq, QS. reflexivity.
  - rewrite orElse_eq. exact L.
  - rewrite orElse_eq. exact U.
Qed.

End ScorerFacts.

(** ** The scorers on the example payloads *)

(** C1 fails on the code.  With a wave height of 0.5 ft at the morning
    hour, the height sub-score is 1 whatever the swell height there is:
    the swell height is read and then never used.  A swell height of
    5.5 ft, which would score 10, leaves the sub-score at 1. *)
Theorem surf_height_ignores_swell (swell : jsval) :
  exists r,
    calculateSurfScore isoNewDate feb27 decimalToFixed1
      (Some (marineWith (JNum (1 # 2)) swell))
      (Some (weatherWithCloud (JNum 40)))
    = Return r
    /\ Surf.heightScore r = Some 1
    /\ Surf.waveHeight r = Some (1 # 2)%Q
    /\ Surf.details r = "0.5ft @ 9s ESE"
    /\ surfHeightScore (11 # 2) = 10.
Proof.
  eexists. split; [vm_compute; reflexivity |]. repeat split.
Qed.

(** C2 fails on the code.  The scorers are not total on payloads with
    absent fields.  The forecast URL of the application names no
    weather-code series: on the payload it asks for, with a morning hour,
    the cycle scorer throws a TypeError, where the photo scorer returns
    (a score of 10 here).  A weather payload without an hourly block
    makes the photo and the cycle scorer throw, though the surf scorer,
    which tests for the block, returns on it; and a marine hourly block
    without a time array makes the surf scorer throw, though it replaces
    every other missing marine array by an empty one. *)
Theorem scorers_throw_on_missing_fields :
  calculateCycleScore isoNewDate feb27 (Some weatherAsRequested)
  = Throw TypeError
  /\ (exists r,
        calculatePhotoScore isoNewDate feb27 (Some weatherAsRequested)
        = Return r /\ Photo.score r = 10)
  /\ calculatePhotoScore isoNewDate feb27 (Some (Weather.mkData None))
     = Throw TypeError
  /\ calculateCycleScore isoNewDate feb27 (Some (Weather.mkData None))
     = Throw TypeError
  /\ (exists r,
        calculateSurfScore isoNewDate feb27 decimalToFixed1
          (Some (marineWith (JNum (32 # 10)) JNull))
          (Some (Weather.mkData None))
        = Return r /\ Surf.windScore r = Some 5)
  /\ calculateSurfScore isoNewDate feb27 decimalToFixed1
       (Some (Marine.mkData (Some
          (Marine.mkHourly None None None None None None None))))
       None
     = Throw TypeError
  /\ (exists r,
        calculateSurfScore isoNewDate feb27 decimalToFixed1
          (Some (Marine.mkData (Some
             (Marine.mkHourly
                (Some ["2024-02-27T05:00"; "2024-02-27T06:00"])
                None None None None None None))))
          None
        = Return r /\ Surf.score r = 3).
Proof.
  split; [reflexivity |].
  split; [eexists; split; reflexivity |].
  split; [reflexivity |]. split; [reflexivity |].
  split; [eexists; split; reflexivity |].
  split; [reflexivity |].
  eexists; split; reflexivity.
Qed.

Lemma surf_scenario_witness :
  exists r,
    calculateSurfScore isoNewDate feb27 decimalToFixed1
      (Some (marineWith (JNum (32 # 10)) JNull))
      (Some (weatherWithCloud (JNum 40)))
    = Return r
    /\ Surf.heightScore r = Some 7
    /\ Surf.periodScore r = Some 8
    /\ Surf.windScore r = Some 10
    /\ Surf.score r = 8.
Proof.
  destruct (surf_scenario isoNewDate feb27 decimalToFixed1
              (marineWith (JNum (32 # 10)) JNull)
              (Marine.mkHourly
                 (Some ["2024-02-27T05:00"; "2024-02-27T06:00"])
                 (Some [JNum 1; JNum (32 # 10)])
                 (Some [JNum 8; JNum 9])
                 (Some [JNum 90; JNum 100])
                 (Some [JNum 1; JNull])
                 None
                 (Some [JNull; JNum 110]))
              (weatherWithCloud (JNum 40))
              (Weather.mkHourly
                 (Some ["2024-02-27T05:00"; "2024-02-27T06:00"])
                 (Some [JNum 58; JNum 60])
                 (Some [JNum 70; JNum 65])
                 (Some [JNum 0; JNum 40])
                 (Some [JNum 10; JNum 6])
                 (Some [JNum 0; JNum 270])
                 (Some [JNum 0; JNum 1]))
              ["2024-02-27T05:00"; "2024-02-27T06:00"]
              ["2024-02-27T05:00"; "2024-02-27T06:00"]
              [JNum 10; JNum 6] [JNum 0; JNum 270]
              (32 # 10) 6 270)
    as (r & E & A & B & C & D & _);
    try reflexivity; try discriminate.
  exists r. repeat split; assumption.
Defined.

(** C3 as it was stated fails: for 3.2 ft at 9 s with 6 mph from 270
    degrees the height sub-score is 7, not 5, and the final score is 8,
    not 7. *)
Lemma surf_scenario_scores_8 :
  exists r,
    calculateSurfScore isoNewDate feb27 decimalToFixed1
      (Some (marineWith (JNum (32 # 10)) JNull))
      (Some (weatherWithCloud (JNum 40)))
    = Return r
    /\ Surf.heightScore r = Some 7 /\ Surf.heightScore r <> Some 5
    /\ Surf.periodScore r = Some 8
    /\ Surf.windScore r = Some 10
    /\ Surf.score r = 8 /\ Surf.score r <> 7.
Proof.
  eexists. split; [vm_compute; reflexivity |].
  repeat split; discriminate.
Qed.

Lemma photo_score_in_good_band_witness :
  exists r,
    calculatePhotoScore isoNewDate feb27 (Some (weatherWithCloud (JNum 40)))
    = Return r
    /\ Photo.score r = 10.
Proof.
  destruct (photo_score_in_good_band isoNewDate feb27
              (weatherWithCloud (JNum 40))
              (Weather.mkHourly
                 (Some ["2024-02-27T05:00"; "2024-02-27T06:00"])
                 (Some [JNum 58; JNum 60])
                 (Some [JNum 70; JNum 65])
                 (Some [JNum 0; JNum 40])
                 (Some [JNum 10; JNum 6])
                 (Some [JNum 0; JNum 270])
                 (Some [JNum 0; JNum 1]))
              ["2024-02-27T05:00"; "2024-02-27T06:00"]
              [JNum 0; JNum 40] 40)
    as (r & E & _ & _ & _ & P & _);
    try reflexivity; try discriminate.
  exists r. split; [exact E | apply P; reflexivity].
Defined.

(** C4 as it was stated fails at the band edges: at a cloud cover of 20
    and of 60 the score is 9, not 8. *)
Lemma photo_score_at_band_edges :
  (exists r,
     calculatePhotoScore isoNewDate feb27 (Some (weatherWithCloud (JNum 20)))
     = Return r
     /\ Photo.score r = 9 /\ Photo.score r <> 8)
  /\ (exists r,
        calculatePhotoScore isoNewDate feb27 (Some (weatherWithCloud (JNum 60)))
        = Return r
        /\ Photo.score r = 9 /\ Photo.score r <> 8).
Proof.
  split; eexists; (split; [vm_compute; reflexivity |]);
    split; [reflexivity | discriminate | reflexivity | discriminate].
Qed.

Lemma photo_score_values_witness :
  exists r,
    calculatePhotoScore isoNewDate feb27 (Some (weatherWithCloud (JNum 25)))
    = Return r
    /\ In (Photo.score r) [2; 4; 5; 6; 9; 10]
    /\ (Photo.score r = 9 \/ Photo.score r = 10).
Proof.
  destruct (photo_score_values isoNewDate feb27
              (Some (weatherWithCloud (JNum 25)))) as [_ F].
  destruct (F (weatherWithCloud (JNum 25))
              (Weather.mkHourly
                 (Some ["2024-02-27T05:00"; "2024-02-27T06:00"])
                 (Some [JNum 58; JNum 60])
                 (Some [JNum 70; JNum 65])
                 (Some [JNum 0; JNum 25])
                 (Some [JNum 10; JNum 6])
                 (Some [JNum 0; JNum 270])
                 (Some [JNum 0; JNum 1]))
              ["2024-02-27T05:00"; "2024-02-27T06:00"]
              eq_refl eq_refl eq_refl) as [_ G].
  destruct (G ltac:(vm_compute; discriminate) [JNum 0; JNum 25] eq_refl)
    as (r & E & V & B).
  exists r. split; [exact E |]. split; [exact V |].
  apply (B 25%Q); [reflexivity | discriminate | discriminate].
Defined.

(** * Further properties of the code *)

(** ** The window resolver *)

Lemma morningLoop_cons (newDate : string -> JsDate) (target t : string)
    (rest : list string) (k : Z) :
  morningLoop newDate (t :: rest) target k
  = if isMorning newDate target t then k
    else morningLoop newDate rest target (k + 1).
Proof. reflexivity. Qed.

Lemma morningLoop_contract (newDate : string -> JsDate) (target : string)
    (times : list string) (k : Z) :
  (morningLoop newDate times target k = -1
   /\ Forall (fun t => isMorning newDate target t = false) times)
  \/ (exists n t,
        morningLoop newDate times target k = k + Z.of_nat n
        /\ nth_error times n = Some t
        /\ isMorning newDate target t = true
        /\ Forall (fun t => isMorning newDate target t = false)
                  (firstn n times)).
Proof.
  revert k. induction times as [| t rest IH]; intros k.
  - left. split; [reflexivity | constructor].
  - rewrite morningLoop_cons.
    destruct (isMorning newDate target t) eqn:M.
    + right. exists 0%nat, t. cbn [nth_error firstn Z.of_nat].
      repeat split; [lia | assumption | constructor].
    + destruct (IH (k + 1)) as [[E F] | (n & t' & E & N & M' & F)].
      * left. split; [exact E | now constructor].
      * right. exists (S n), t'. cbn [nth_error firstn].
        repeat split; [lia | assumption | assumption | now constructor].
Qed.

(** X1.  [getMorningHourIndex] throws on a missing time array.  On an
    array it returns -1 exactly when no timestamp is in the morning
    window of the target date, and otherwise the position of the first
    one that is: a valid index, with no morning timestamp before it. *)
Theorem getMorningHourIndex_first_match (newDate : string -> JsDate)
    (target : string) (times : list string) :
  getMorningHourIndex newDate None target = Throw TypeError
  /\ exists i,
       getMorningHourIndex newDate (Some times) target = Return i
       /\ (i = -1 <-> Forall (fun t => isMorning newDate target t = false) times)
       /\ (i <> -1 ->
           0 <= i < Z.of_nat (List.length times)
           /\ (exists t, index times i = Some t
                         /\ isMorning newDate target t = true)
           /\ forall j t, 0 <= j < i -> index times j = Some t ->
                          isMorning newDate target t = false).
Proof.
  split; [reflexivity |].
  exists (morningLoop newDate times target 0). split; [reflexivity |].
  destruct (morningLoop_contract newDate target times 0)
    as [[E F] | (n & t & E & N & M & F)].
  - rewrite E. split; [tauto | congruence].
  - rewrite E. assert (n < List.length times)%nat as L
      by (apply nth_error_Some; congruence).
    split.
    + split; [lia |]. intros A. exfalso.
      rewrite Forall_forall in A.
      apply nth_error_In in N. specialize (A t N). congruence.
    + intros _. split; [lia |]. split.
      * exists t. unfold index.
        destruct (0 + Z.of_nat n <? 0) eqn:B; [apply Z.ltb_lt in B; lia |].
        replace (Z.to_nat (0 + Z.of_nat n)) with n by lia. now split.
      * intros j t' J I. unfold index in I.
        destruct (j <? 0) eqn:B; [discriminate |].
        rewrite Forall_forall in F. apply F.
        apply nth_error_In with (n := Z.to_nat j).
        rewrite nth_error_firstn.
        destruct (Nat.ltb_spec (Z.to_nat j) n); [exact I | lia].
Qed.

(** ** The sectors of the compass *)

(** X2.  For degrees up to 10^9, where the quotient by 22.5 is computed
    without a rounding that matters: for every whole number [k >= 0],
    the degrees from [22.5 k - 11.25] up to, but not including,
    [22.5 k + 11.25] map to the label of index [k mod 16].  Each label
    owns a sector of 22.5 degrees centred on its bearing, and 348.75 up
    to 371.25 is N again. *)
Theorem degreesToCardinal_sector (d : Q) (k : Z) :
  0 <= k ->
  (d <= 1000000000)%Q ->
  (inject_Z k * (45 # 2) - (45 # 4) <= d)%Q ->
  (d < inject_Z k * (45 # 2) + (45 # 4))%Q ->
  degreesToCardinal (Fin d) = index directions (k mod 16)
  /\ exists l, index directions (k mod 16) = Some l.
Proof.
  intros K _ L U.
  assert (round (d / (45 # 2)) = k) as R.
  { apply round_unique; rewrite cardinal_arg; lra. }
  cbn [degreesToCardinal]. unfold cardinalIndex. rewrite R.
  rewrite Z.rem_mod_nonneg by lia. split; [reflexivity |].
  destruct (index_in_range directions (k mod 16)) as (l & E & _).
  - change (Z.of_nat (List.length directions)) with 16.
    apply Z.mod_pos_bound. lia.
  - now exists l.
Qed.

Lemma degreesToCardinal_sector_witness :
  degreesToCardinal (Fin 359) = Some "N"
  /\ degreesToCardinal (Fin (33 + (3 # 4))) = Some "NE".
Proof.
  split.
  - exact (proj1 (degreesToCardinal_sector 359 16 ltac:(discriminate)
                    ltac:(discriminate) ltac:(discriminate)
                    ltac:(reflexivity))).
  - exact (proj1 (degreesToCardinal_sector (33 + (3 # 4)) 2 ltac:(discriminate)
                    ltac:(discriminate) ltac:(discriminate)
                    ltac:(reflexivity))).
Defined.

(** ** The tables of the surf scorer *)

(** Splits a goal on every rational comparison in it. *)
Ltac qcases :=
  repeat match goal with
  | |- context [Qltb ?a ?b] => destruct (Qltb a b) eqn:?
  | |- context [Qle_bool ?a ?b] => destruct (Qle_bool a b) eqn:?
  end;
  cbn [andb orb negb];
  qbool.

Lemma surfHeightScore_values (x : Q) :
  In (surfHeightScore x) [1; 3; 5; 7; 9; 10; 8; 6].
Proof. unfold surfHeightScore. qcases; cbn; tauto. Qed.

Lemma surfPeriodScore_values (x : Q) :
  In (surfPeriodScore x) [2; 4; 6; 8; 10].
Proof. unfold surfPeriodScore. qcases; cbn; tauto. Qed.

Lemma surfWindClass_values (speed dir : Q) :
  In (surfWindClass speed dir) [2; 4; 7; 8; 10].
Proof. unfold surfWindClass. qcases; cbn; tauto. Qed.

(** X3.  The height table rises with the wave height up to 6 ft and
    falls after: it never decreases below 6 ft, it is 10 exactly from
    5 ft up to 6 ft, 8 from 6 ft up to 8 ft and 6 from 8 ft on. *)
Theorem surfHeightScore_shape (x y : Q) :
  ((x <= y)%Q -> (y < 6)%Q -> surfHeightScore x <= surfHeightScore y)
  /\ (surfHeightScore x = 10 <-> (5 <= x)%Q /\ (x < 6)%Q)
  /\ (surfHeightScore x = 8 <-> (6 <= x)%Q /\ (x < 8)%Q)
  /\ ((8 <= x)%Q -> surfHeightScore x = 6)
  /\ In (surfHeightScore x) [1; 3; 5; 7; 9; 10; 8; 6].
Proof.
  unfold surfHeightScore.
  split; [| split; [| split; [| split]]].
  - intros L U. qcases; try lia; exfalso; lra.
  - qcases; split; try lia; try (intros [? ?]; exfalso; lra);
      intros _; split; lra.
  - qcases; split; try lia; try (intros [? ?]; exfalso; lra);
      intros _; split; lra.
  - intros L. qcases; try reflexivity; exfalso; lra.
  - qcases; cbn; tauto.
Qed.

Lemma surfHeightScore_shape_witness :
  surfHeightScore (5 # 2) <= surfHeightScore (11 # 2)
  /\ surfHeightScore 9 = 6.
Proof.
  destruct (surfHeightScore_shape (5 # 2) (11 # 2)) as (M & _).
  destruct (surfHeightScore_shape 9 9) as (_ & _ & _ & B & _).
  split; [apply M; discriminate || reflexivity | apply B; discriminate].
Defined.

(** X4.  A longer period never lowers the period sub-score, and the
    sub-score is 10 exactly from 11 s on. *)
Theorem surfPeriodScore_monotone (x y : Q) :
  ((x <= y)%Q -> surfPeriodScore x <= surfPeriodScore y)
  /\ (surfPeriodScore x = 10 <-> (11 <= x)%Q)
  /\ In (surfPeriodScore x) [2; 4; 6; 8; 10].
Proof.
  unfold surfPeriodScore. split; [| split].
  - intros L. qcases; try lia; exfalso; lra.
  - qcases; split; try lia; try (intros ?; exfalso; lra); intros _; lra.
  - qcases; cbn; tauto.
Qed.

Lemma surfPeriodScore_monotone_witness :
  surfPeriodScore 6 <= surfPeriodScore 12.
Proof.
  apply (proj1 (surfPeriodScore_monotone 6 12)). discriminate.
Defined.

(** X5.  In the wind table a stronger wind never scores higher, from
    whatever direction; at a given speed an offshore direction (250 to
    320 degrees) never scores lower than another one; and the score is
    10 exactly for an offshore wind under 8 mph. *)
Theorem surfWindClass_order (speed speed' dir dir' : Q) :
  ((speed <= speed')%Q ->
     surfWindClass speed' dir <= surfWindClass speed dir)
  /\ ((250 <= dir)%Q -> (dir <= 320)%Q ->
      surfWindClass speed dir' <= surfWindClass speed dir)
  /\ (surfWindClass speed dir = 10
      <-> (250 <= dir)%Q /\ (dir <= 320)%Q /\ (speed < 8)%Q)
  /\ In (surfWindClass speed dir) [2; 4; 7; 8; 10].
Proof.
  unfold surfWindClass. split; [| split; [| split]].
  - intros L. qcases; try lia; exfalso; lra.
  - intros L U. qcases; try lia; exfalso; lra.
  - qcases; split; try lia; try (intros (? & ? & ?); exfalso; lra);
      intros _; repeat split; lra.
  - qcases; cbn; tauto.
Qed.

Lemma surfWindClass_order_witness :
  surfWindClass 20 270 <= surfWindClass 6 270
  /\ surfWindClass 6 90 <= surfWindClass 6 270.
Proof.
  destruct (surfWindClass_order 6 20 270 90) as (A & B & _).
  split; [apply A; discriminate | apply B; discriminate].
Defined.

(** ** The surf scorer as a whole *)

Lemma weighted_between (a b c lo hi : Z) :
  (inject_Z lo - (1 # 2)
   <= inject_Z a * (4 # 10) + inject_Z b * (3 # 10) + inject_Z c * (3 # 10))%Q ->
  (inject_Z a * (4 # 10) + inject_Z b * (3 # 10) + inject_Z c * (3 # 10)
   < inject_Z hi + (1 # 2))%Q ->
  lo <= weighted a b c <= hi.
Proof. intros L U. unfold weighted. now apply round_between. Qed.

Lemma weighted_range (a b c lo hi : Z) :
  lo <= a <= hi -> lo <= b <= hi -> lo <= c <= hi ->
  lo <= weighted a b c <= hi.
Proof.
  intros [A1 A2] [B1 B2] [C1 C2].
  rewrite Zle_Qle in A1, A2, B1, B2, C1, C2.
  apply weighted_between; lra.
Qed.

Lemma clamp_id (z : Z) : 1 <= z <= 10 -> clamp z = z.
Proof. unfold clamp. lia. Qed.

Section SurfFacts.

Variable newDate : string -> JsDate.
Variable tomorrowDate : JsDate.
Variable toFixed1 : Q -> string.

Local Abbreviation tomorrow := (getTomorrowDate tomorrowDate).
Local Abbreviation morningIndexOf times := (morningLoop newDate times tomorrow 0).
Local Abbreviation surfScore := (calculateSurfScore newDate tomorrowDate toFixed1).

Lemma surfWindScore_values (weatherData : option Weather.Data) (wind : Z) :
  surfWindScore newDate weatherData tomorrow = Return wind ->
  In wind [2; 4; 5; 7; 8; 10].
Proof.
  clear toFixed1.
  unfold surfWindScore, getMorningHourIndex.
  destruct weatherData as [w |]; [| intros [= <-]; cbn; tauto].
  destruct (Weather.hourly w) as [h |]; [| intros [= <-]; cbn; tauto].
  destruct (Weather.time h) as [times |]; [| discriminate].
  cbn [deref bind].
  destruct (_ =? -1); [intros [= <-]; cbn; tauto |].
  destruct (Weather.wind_speed_10m h) as [speeds |]; [| discriminate].
  destruct (Weather.wind_direction_10m h) as [dirs |]; [| discriminate].
  cbn [deref bind]. intros [= <-].
  match goal with
  | |- In (surfWindClass ?s ?d) _ => pose proof (surfWindClass_values s d) as V
  end.
  cbn [In] in V |- *. tauto.
Qed.

(** What a returned surf result is: one of the two no-data results, or
    the result built from the three sub-scores. *)
Lemma surfScore_inversion (marineData : option Marine.Data)
    (weatherData : option Weather.Data) (r : Surf.Result) :
  surfScore marineData weatherData = Return r ->
  r = Surf.noData "No data available"
  \/ r = Surf.noData "No forecast data"
  \/ exists height period wind,
       In height [1; 3; 5; 7; 9; 10; 8; 6]
       /\ In period [2; 4; 6; 8; 10]
       /\ In wind [2; 4; 5; 7; 8; 10]
       /\ Surf.heightScore r = Some height
       /\ Surf.periodScore r = Some period
       /\ Surf.windScore r = Some wind
       /\ Surf.score r = clamp (weighted height period wind).
Proof.
  unfold calculateSurfScore.
  destruct marineData as [md |]; [| intros [= <-]; now left].
  destruct (Marine.hourly md) as [mh |]; [| intros [= <-]; now left].
  destruct (Marine.time mh) as [times |]; [| discriminate].
  cbn [deref bind].
  destruct (_ =? -1); [intros [= <-]; right; now left |].
  destruct (surfWindScore newDate weatherData tomorrow) as [wind | e] eqn:W;
    [| discriminate].
  cbn [bind]. intros [= <-]. right. right.
  eexists. eexists. exists wind. cbn [Surf.heightScore Surf.periodScore
    Surf.windScore Surf.score].
  split; [| split; [| split; [exact (surfWindScore_values _ _ W) |
    repeat split]]].
  - apply surfHeightScore_values.
  - apply surfPeriodScore_values.
Qed.

(** X6.  A surf score that is returned is 0 exactly in the two no-data
    results, which carry no sub-scores.  Otherwise it is the rounded
    weighted sum of the three sub-scores itself, between 2 and 10: the
    clamp to [1, 10] never changes it, and a score of 1 is never
    returned. *)
Theorem surf_score_unclamped (marineData : option Marine.Data)
    (weatherData : option Weather.Data) (r : Surf.Result) :
  surfScore marineData weatherData = Return r ->
  (Surf.score r = 0
   /\ Surf.heightScore r = None /\ Surf.periodScore r = None
   /\ Surf.windScore r = None)
  \/ (exists height period wind,
        Surf.heightScore r = Some height
        /\ Surf.periodScore r = Some period
        /\ Surf.windScore r = Some wind
        /\ Surf.score r = weighted height period wind
        /\ 2 <= Surf.score r <= 10).
Proof.
  intros R.
  destruct (surfScore_inversion _ _ _ R)
    as [-> | [-> | (h & p & w & H & P & W & EH & EP & EW & ES)]].
  - left. repeat split.
  - left. repeat split.
  - right. exists h, p, w.
    assert (2 <= weighted h p w <= 10) as B.
    { apply weighted_between.
      - assert (1 <= h) as A by (cbn [In] in H; lia).
        assert (2 <= p) as B by (cbn [In] in P; lia).
        assert (2 <= w) as C by (cbn [In] in W; lia).
        rewrite Zle_Qle in A, B, C.
        change (inject_Z 1) with 1%Q in A. change (inject_Z 2) with 2%Q in *.
        lra.
      - assert (h <= 10) as A by (cbn [In] in H; lia).
        assert (p <= 10) as B by (cbn [In] in P; lia).
        assert (w <= 10) as C by (cbn [In] in W; lia).
        rewrite Zle_Qle in A, B, C.
        change (inject_Z 10) with 10%Q in *. lra. }
    rewrite ES, clamp_id by lia. repeat split; try assumption; lia.
Qed.

(** X7.  When the marine payload has a morning hour, the wind sub-score
    is 5 if the weather payload is missing, has no hourly block, or has
    a time array without a morning hour; in the last case the wind
    arrays are not read and may be missing. *)
Theorem surf_wind_default (md : Marine.Data) (mh : Marine.Hourly)
    (times : list string) (weatherData : option Weather.Data) :
  Marine.hourly md = Some mh -> Marine.time mh = Some times ->
  morningIndexOf times <> -1 ->
  weatherData = None
  \/ (exists w, weatherData = Some w /\ Weather.hourly w = None)
  \/ (exists w h wtimes,
        weatherData = Some w /\ Weather.hourly w = Some h
        /\ Weather.time h = Some wtimes /\ morningIndexOf wtimes = -1) ->
  exists r,
    surfScore (Some md) weatherData = Return r
    /\ Surf.windScore r = Some 5.
Proof.
  intros H T I D.
  assert (surfWindScore newDate weatherData tomorrow = Return 5) as W.
  { unfold surfWindScore, getMorningHourIndex.
    destruct D as [-> | [(w & -> & ->) | (w & h & wt & -> & -> & -> & E)]];
      try reflexivity.
    cbn [deref bind]. now rewrite E. }
  destruct (surfScore_found newDate tomorrowDate toFixed1 md mh times
              weatherData 5 H T I W) as (text & direction & ->).
  eexists. split; reflexivity.
Qed.

End SurfFacts.

Lemma surf_score_unclamped_witness :
  exists r,
    calculateSurfScore isoNewDate feb27 decimalToFixed1
      (Some (marineWith (JNum (32 # 10)) JNull))
      (Some (weatherWithCloud (JNum 40))) = Return r
    /\ 2 <= Surf.score r <= 10.
Proof.
  eexists. split; [vm_compute; reflexivity |].
  destruct (surf_score_unclamped isoNewDate feb27 decimalToFixed1
              (Some (marineWith (JNum (32 # 10)) JNull))
              (Some (weatherWithCloud (JNum 40))) _ eq_refl)
    as [(Z0 & _) | (h & p & w & _ & _ & _ & _ & B)].
  - discriminate Z0.
  - exact B.
Defined.

Lemma surf_wind_default_witness :
  exists r,
    calculateSurfScore isoNewDate feb27 decimalToFixed1
      (Some (marineWith (JNum (32 # 10)) JNull)) None = Return r
    /\ Surf.windScore r = Some 5.
Proof.
  apply (surf_wind_default isoNewDate feb27 decimalToFixed1
           (marineWith (JNum (32 # 10)) JNull)
           (Marine.mkHourly
              (Some ["2024-02-27T05:00"; "2024-02-27T06:00"])
              (Some [JNum 1; JNum (32 # 10)])
              (Some [JNum 8; JNum 9])
              (Some [JNum 90; JNum 100])
              (Some [JNum 1; JNull])
              None
              (Some [JNull; JNum 110]))
           ["2024-02-27T05:00"; "2024-02-27T06:00"] None
           eq_refl eq_refl);
    [discriminate | now left].
Defined.

(** ** The bands of the photo scorer *)

Lemma photoFormula_ten (c : Q) :
  (20 <= c)%Q -> (c <= 60)%Q ->
  (photoFormula c = 10 <-> (30 <= c)%Q /\ (c <= 50)%Q).
Proof.
  intros L U. unfold photoFormula.
  destruct (round_bounds ((40 - Qabs (c - 40)) / 20)) as [RL RU].
  destruct (band_argument c L U) as [A B].
  split.
  - intros E.
    assert (round ((40 - Qabs (c - 40)) / 20) = 2) as R by lia.
    rewrite R in RL. change (inject_Z 2) with 2%Q in RL.
    revert RL. unfold Qdiv. change (/ 20)%Q with (1 # 20)%Q.
    destruct (Qlt_le_dec (c - 40) 0).
    + rewrite Qabs_neg by lra. intros. split; lra.
    + rewrite Qabs_pos by lra. intros. split; lra.
  - intros [L' U'].
    assert (round ((40 - Qabs (c - 40)) / 20) = 2) as R; [| lia].
    apply round_unique; change (inject_Z 2) with 2%Q; [| lra].
    unfold Qdiv. change (/ 20)%Q with (1 # 20)%Q.
    destruct (Qlt_le_dec (c - 40) 0).
    + rewrite Qabs_neg by lra. lra.
    + rewrite Qabs_pos by lra. lra.
Qed.

Lemma photoBand_regions (c : Q) :
  ((c < 10)%Q ->
     photoBand (Fin c) = (4, "Clear sky - pretty but no cloud color"))
  /\ ((10 <= c)%Q -> (c < 20)%Q ->
      photoBand (Fin c) = (6, "Light clouds - some color potential"))
  /\ ((20 <= c)%Q -> (c <= 60)%Q ->
      photoBand (Fin c)
      = (if Qle_bool 30 c && Qle_bool c 50 then 10 else 9,
         "Good cloud cover for colorful sunrise"))
  /\ ((60 < c)%Q -> (c <= 80)%Q ->
      photoBand (Fin c) = (5, "Heavy clouds - may get some color"))
  /\ ((80 < c)%Q ->
      photoBand (Fin c) = (2, "Overcast - unlikely to see color")).
Proof.
  split; [| split; [| split; [| split]]].
  - intros A. unfold photoBand. cbn [numGe numLe numLt numGt].
    qcases; try reflexivity; exfalso; lra.
  - intros A B. unfold photoBand. cbn [numGe numLe numLt numGt].
    qcases; try reflexivity; exfalso; lra.
  - intros A B. rewrite (photoBand_good c A B). f_equal.
    pose proof (photoFormula_range c A B) as R.
    pose proof (photoFormula_ten c A B) as T.
    destruct (Qle_bool 30 c) eqn:E1, (Qle_bool c 50) eqn:E2; cbn [andb];
      qbool.
    + apply T. now split.
    + assert (photoFormula c <> 10) by (intros X; apply T in X; lra). lia.
    + assert (photoFormula c <> 10) by (intros X; apply T in X; lra). lia.
    + assert (photoFormula c <> 10) by (intros X; apply T in X; lra). lia.
  - intros A B. unfold photoBand. cbn [numGe numLe numLt numGt].
    qcases; try reflexivity; exfalso; lra.
  - intros A. unfold photoBand. cbn [numGe numLe numLt numGt].
    qcases; try reflexivity; exfalso; lra.
Qed.

Section PhotoFacts.

Variable newDate : string -> JsDate.
Variable tomorrowDate : JsDate.

Local Abbreviation tomorrow := (getTomorrowDate tomorrowDate).
Local Abbreviation morningIndexOf times := (morningLoop newDate times tomorrow 0).
Local Abbreviation photoScore := (calculatePhotoScore newDate tomorrowDate).

(** X8.  For a cloud cover [c] at the morning hour the photo score tells
    the band: it is 10 exactly for 30 <= c <= 50, 9 exactly for the rest
    of [20, 60], 6 exactly for 10 <= c < 20, 5 exactly for 60 < c <= 80,
    4 exactly for c < 10 (negative covers included) and 2 exactly for
    c > 80 (covers over 100 included). *)
Theorem photo_score_tells_band (w : Weather.Data) (h : Weather.Hourly)
    (times : list string) (covers : list jsval) (c : Q) :
  Weather.hourly w = Some h -> Weather.time h = Some times ->
  morningIndexOf times <> -1 ->
  Weather.cloud_cover h = Some covers ->
  at_ covers (morningIndexOf times) = JNum c ->
  exists r,
    photoScore (Some w) = Return r
    /\ (Photo.score r = 10 <-> (30 <= c)%Q /\ (c <= 50)%Q)
    /\ (Photo.score r = 9
        <-> ((20 <= c)%Q /\ (c < 30)%Q) \/ ((50 < c)%Q /\ (c <= 60)%Q))
    /\ (Photo.score r = 6 <-> (10 <= c)%Q /\ (c < 20)%Q)
    /\ (Photo.score r = 5 <-> (60 < c)%Q /\ (c <= 80)%Q)
    /\ (Photo.score r = 4 <-> (c < 10)%Q)
    /\ (Photo.score r = 2 <-> (80 < c)%Q).
Proof.
  intros H T I C E.
  destruct (photoScore_found newDate tomorrowDate w h times covers H T I C)
    as (hum & ->).
  cbv zeta. rewrite E. cbn [toNumber].
  eexists. split; [reflexivity |]. cbn [Photo.score].
  destruct (photoBand_regions c) as (R1 & R2 & R3 & R4 & R5).
  destruct (Qlt_le_dec c 10) as [A | A];
    [rewrite (R1 A); cbn [fst];
     repeat split; try lia; try lra; intros; exfalso; lra |].
  destruct (Qlt_le_dec c 20) as [B | B];
    [rewrite (R2 A B); cbn [fst];
     repeat split; try lia; try lra; intros; exfalso; lra |].
  destruct (Qlt_le_dec 60 c) as [D | D].
  - destruct (Qlt_le_dec 80 c) as [F | F].
    + rewrite (R5 F); cbn [fst].
      repeat split; try lia; try lra; intros; exfalso; lra.
    + rewrite (R4 D F); cbn [fst].
      repeat split; try lia; try lra; intros; exfalso; lra.
  - rewrite (R3 B D); cbn [fst].
    destruct (Qle_bool 30 c) eqn:E1, (Qle_bool c 50) eqn:E2; cbn [andb];
      qbool;
      repeat split; try lia; try lra; intros; exfalso; lra.
Qed.

(** X9.  An element of the cloud-cover array that is missing (the array
    is shorter than the morning index) is scored as overcast, 2; an
    element that is [null] is scored as a clear sky, 4.  Neither makes
    the scorer throw. *)
Theorem photo_score_without_cover (w : Weather.Data) (h : Weather.Hourly)
    (times : list string) (covers : list jsval) :
  Weather.hourly w = Some h -> Weather.time h = Some times ->
  morningIndexOf times <> -1 ->
  Weather.cloud_cover h = Some covers ->
  (at_ covers (morningIndexOf times) = JUndef ->
   exists r, photoScore (Some w) = Return r
             /\ Photo.score r = 2
             /\ Photo.verdict r = "Overcast - unlikely to see color")
  /\ (at_ covers (morningIndexOf times) = JNull ->
      exists r, photoScore (Some w) = Return r
                /\ Photo.score r = 4
                /\ Photo.verdict r = "Clear sky - pretty but no cloud color")
  /\ (Z.of_nat (List.length covers) <= morningIndexOf times ->
      at_ covers (morningIndexOf times) = JUndef).
Proof.
  intros H T I C.
  destruct (photoScore_found newDate tomorrowDate w h times covers H T I C)
    as (hum & ->).
  cbv zeta. split; [| split].
  - intros ->. eexists. repeat split.
  - intros ->. eexists. repeat split.
  - intros L. unfold at_, index.
    destruct (_ <? 0); [reflexivity |].
    destruct (nth_error covers _) eqn:N; [| reflexivity].
    assert (nth_error covers (Z.to_nat (morningIndexOf times)) <> None) as S
      by congruence.
    apply nth_error_Some in S. lia.
Qed.

(** X10.  The humidity series is informational: payloads that differ
    only in it get the same outcome up to the humidity field, that is the
    same score, verdict and cloud cover, or the same throw. *)
Theorem photo_score_ignores_humidity
    (times : option (list string))
    (temps humidities humidities' covers speeds dirs codes
       : option (list jsval)) :
  let payload hs :=
    Some (Weather.mkData (Some
      (Weather.mkHourly times temps hs covers speeds dirs codes))) in
  match photoScore (payload humidities), photoScore (payload humidities') with
  | Return r, Return r' =>
      Photo.score r = Photo.score r'
      /\ Photo.verdict r = Photo.verdict r'
      /\ Photo.cloudCover r = Photo.cloudCover r'
      /\ Photo.details r = Photo.details r'
  | Throw e, Throw e' => e = e'
  | _, _ => False
  end.
Proof.
  cbv zeta. unfold calculatePhotoScore, getMorningHourIndex.
  cbn [prop bind Weather.hourly Weather.time Weather.cloud_cover
       Weather.relative_humidity_2m].
  destruct times as [ts |]; cbn [deref bind]; [| reflexivity].
  destruct (_ =? -1); [repeat split |].
  destruct covers as [cs |]; cbn [deref bind]; [| reflexivity].
  destruct (photoBand _). repeat split.
Qed.

End PhotoFacts.

Lemma photo_score_tells_band_witness :
  exists r,
    calculatePhotoScore isoNewDate feb27 (Some (weatherWithCloud (JNum 70)))
    = Return r
    /\ Photo.score r = 5.
Proof.
  destruct (photo_score_tells_band isoNewDate feb27
              (weatherWithCloud (JNum 70))
              (Weather.mkHourly
                 (Some ["2024-02-27T05:00"; "2024-02-27T06:00"])
                 (Some [JNum 58; JNum 60])
                 (Some [JNum 70; JNum 65])
                 (Some [JNum 0; JNum 70])
                 (Some [JNum 10; JNum 6])
                 (Some [JNum 0; JNum 270])
                 (Some [JNum 0; JNum 1]))
              ["2024-02-27T05:00"; "2024-02-27T06:00"]
              [JNum 0; JNum 70] 70 eq_refl eq_refl ltac:(discriminate)
              eq_refl eq_refl)
    as (r & E & _ & _ & _ & F & _).
  exists r. split; [exact E |]. apply F. split; [reflexivity | discriminate].
Defined.

Lemma photo_score_without_cover_witness :
  exists r,
    calculatePhotoScore isoNewDate feb27 (Some (weatherWithCloud JNull))
    = Return r
    /\ Photo.score r = 4
    /\ Photo.verdict r = "Clear sky - pretty but no cloud color".
Proof.
  destruct (photo_score_without_cover isoNewDate feb27
              (weatherWithCloud JNull)
              (Weather.mkHourly
                 (Some ["2024-02-27T05:00"; "2024-02-27T06:00"])
                 (Some [JNum 58; JNum 60])
                 (Some [JNum 70; JNum 65])
                 (Some [JNum 0; JNull])
                 (Some [JNum 10; JNum 6])
                 (Some [JNum 0; JNum 270])
                 (Some [JNum 0; JNum 1]))
              ["2024-02-27T05:00"; "2024-02-27T06:00"]
              [JNum 0; JNull] eq_refl eq_refl ltac:(discriminate) eq_refl)
    as (_ & N & _).
  apply N. reflexivity.
Defined.

(** ** The wind direction of the cycle scorer *)

Lemma inject_Z_sub (a b : Z) : inject_Z (a - b) = (inject_Z a - inject_Z b)%Q.
Proof. unfold Z.sub, Qminus. now rewrite inject_Z_plus, inject_Z_opp. Qed.

Lemma Qtrunc_nonneg (q : Q) : (0 <= q)%Q -> Qtrunc q = Qfloor q.
Proof.
  destruct q as [n d]. unfold Qle, Qtrunc, Qfloor. cbn. intros H.
  apply Z.quot_div_nonneg; lia.
Qed.

Lemma Qtrunc_nonpos (q : Q) : (q <= 0)%Q -> Qtrunc q = Qceiling q.
Proof.
  destruct q as [n d]. unfold Qle, Qtrunc, Qceiling, Qfloor. cbn. intros H.
  rewrite <- (Z.opp_involutive n) at 1.
  rewrite Z.quot_opp_l by lia.
  now rewrite Z.quot_div_nonneg by lia.
Qed.

Lemma Qrem_nonneg (x : Q) :
  (0 <= x)%Q ->
  (Qrem x 360 == x - 360 * inject_Z (Qfloor (x / 360)))%Q
  /\ (0 <= Qrem x 360)%Q /\ (Qrem x 360 < 360)%Q.
Proof.
  intros H. unfold Qrem.
  assert (0 <= x / 360)%Q as P
    by (unfold Qdiv; change (/ 360)%Q with (1 # 360)%Q; lra).
  rewrite (Qtrunc_nonneg _ P).
  pose proof (Qfloor_le (x / 360)) as F1.
  pose proof (Qlt_floor (x / 360)) as F2.
  rewrite inject_Z_plus in F2. change (inject_Z 1) with 1%Q in F2.
  set (f := inject_Z (Qfloor (x / 360))) in *.
  unfold Qdiv in F1, F2. change (/ 360)%Q with (1 # 360)%Q in F1, F2.
  repeat split; lra.
Qed.

Lemma Qrem_nonpos (x : Q) :
  (x <= 0)%Q ->
  (Qrem x 360 == x - 360 * inject_Z (Qceiling (x / 360)))%Q
  /\ (- 360 < Qrem x 360)%Q /\ (Qrem x 360 <= 0)%Q.
Proof.
  intros H. unfold Qrem.
  assert (x / 360 <= 0)%Q as P
    by (unfold Qdiv; change (/ 360)%Q with (1 # 360)%Q; lra).
  rewrite (Qtrunc_nonpos _ P).
  pose proof (Qle_ceiling (x / 360)) as F1.
  pose proof (Qceiling_lt (x / 360)) as F2.
  unfold Z.sub in F2. rewrite inject_Z_plus in F2.
  change (inject_Z (- (1))) with (-1)%Q in F2.
  set (f := inject_Z (Qceiling (x / 360))) in *.
  unfold Qdiv in F1, F2. change (/ 360)%Q with (1 # 360)%Q in F1, F2.
  repeat split; lra.
Qed.

Lemma Qrem_small (x : Q) : (0 <= x)%Q -> (x < 360)%Q -> (Qrem x 360 == x)%Q.
Proof.
  intros L U. destruct (Qrem_nonneg x L) as (E & _).
  rewrite E. rewrite (Qfloor_unique (x / 360) 0).
  - change (inject_Z 0) with 0%Q. lra.
  - change (inject_Z 0) with 0%Q.
    unfold Qdiv; change (/ 360)%Q with (1 # 360)%Q; lra.
  - change (inject_Z 0) with 0%Q.
    unfold Qdiv; change (/ 360)%Q with (1 # 360)%Q; lra.
Qed.

Lemma Qrem_one_turn (x : Q) :
  (360 <= x)%Q -> (x < 720)%Q -> (Qrem x 360 == x - 360)%Q.
Proof.
  intros L U. destruct (Qrem_nonneg x) as (E & _); [lra |].
  rewrite E. rewrite (Qfloor_unique (x / 360) 1).
  - change (inject_Z 1) with 1%Q. lra.
  - change (inject_Z 1) with 1%Q.
    unfold Qdiv; change (/ 360)%Q with (1 # 360)%Q; lra.
  - change (inject_Z 1) with 1%Q.
    unfold Qdiv; change (/ 360)%Q with (1 # 360)%Q; lra.
Qed.

Lemma normalizeDir_turns (x : Q) :
  exists n turns,
    normalizeDir (Fin x) = Fin n
    /\ (0 <= n)%Q /\ (n < 360)%Q
    /\ (n == x - 360 * inject_Z turns)%Q.
Proof.
  cbn [normalizeDir]. eexists.
  destruct (Qlt_le_dec x 0) as [N | P].
  - destruct (Qrem_nonpos x) as (E & L & U); [lra |].
    destruct (Qlt_le_dec (Qrem x 360) 0) as [N' | Z'].
    + exists (Qceiling (x / 360) - 1). split; [reflexivity |].
      rewrite (Qrem_small (Qrem x 360 + 360)) by lra.
      rewrite inject_Z_sub. change (inject_Z 1) with 1%Q.
      repeat split; lra.
    + exists (Qceiling (x / 360)). split; [reflexivity |].
      rewrite (Qrem_one_turn (Qrem x 360 + 360)) by lra.
      repeat split; lra.
  - destruct (Qrem_nonneg x P) as (E & L & U).
    exists (Qfloor (x / 360)). split; [reflexivity |].
    rewrite (Qrem_one_turn (Qrem x 360 + 360)) by lra.
    repeat split; lra.
Qed.

Lemma cardinal_of_nonneg (d : Q) :
  (0 <= d)%Q ->
  exists l, In l directions /\ degreesToCardinal (Fin d) = Some l.
Proof.
  intros H. cbn [degreesToCardinal]. unfold cardinalIndex.
  assert (0 <= round (d / (45 # 2))) as R
    by (apply round_cardinal_nonneg; lra).
  destruct (index_in_range directions (Z.rem (round (d / (45 # 2))) 16))
    as (l & E & I).
  - rewrite Z.rem_mod_nonneg by lia.
    change (Z.of_nat (List.length directions)) with 16.
    apply Z.mod_pos_bound. lia.
  - exists l. split; assumption.
Qed.

Lemma normalizeDir_whole (z : Z) :
  exists n,
    normalizeDir (Fin (inject_Z z)) = Fin n
    /\ (n == inject_Z (z mod 360))%Q
    /\ (0 <= n)%Q /\ (n < 360)%Q.
Proof.
  destruct (normalizeDir_turns (inject_Z z)) as (n & turns & E & L & U & T).
  exists n. split; [exact E |]. split; [| now split].
  assert (n == inject_Z (z - 360 * turns))%Q as N.
  { rewrite inject_Z_sub, inject_Z_mult. change (inject_Z 360) with 360%Q.
    exact T. }
  rewrite N in L, U.
  change 0%Q with (inject_Z 0) in L. change 360%Q with (inject_Z 360) in U.
  rewrite <- Zle_Qle in L. rewrite <- Zlt_Qlt in U.
  rewrite N. apply inject_Z_injective.
  apply (Z.mod_unique z 360 turns); lia.
Qed.

(** X11.  For a whole number of degrees [d], of magnitude at most 10^9
    (every step of [((d % 360) + 360) % 360] is then exact), the
    normalised wind direction is [d mod 360]: it lies in [0, 360), it is
    [d] itself for [d] in [0, 360), and directions a whole number of
    turns apart normalise to the same value. *)
Theorem normalizeDir_range (z : Z) :
  - 1000000000 <= z <= 1000000000 ->
  exists n,
    normalizeDir (Fin (inject_Z z)) = Fin n
    /\ (n == inject_Z (z mod 360))%Q
    /\ (0 <= n)%Q /\ (n < 360)%Q
    /\ (0 <= z < 360 -> (n == inject_Z z)%Q)
    /\ forall k m,
         - 1000000000 <= z + 360 * k <= 1000000000 ->
         normalizeDir (Fin (inject_Z (z + 360 * k))) = Fin m -> (m == n)%Q.
Proof.
  intros _.
  destruct (normalizeDir_whole z) as (n & E & N & L & U).
  exists n. repeat split; try assumption.
  - intros B. rewrite N. now rewrite Z.mod_small.
  - intros k m _ M.
    destruct (normalizeDir_whole (z + 360 * k)) as (m' & E' & N' & _).
    rewrite E' in M. injection M as <-.
    rewrite N', N. apply inject_Z_injective.
    rewrite Z.mul_comm. apply Z_mod_plus_full.
Qed.

Lemma normalizeDir_range_witness :
  exists n, normalizeDir (Fin (inject_Z (-90))) = Fin n
            /\ (n == inject_Z ((-90) mod 360))%Q.
Proof.
  destruct (normalizeDir_range (-90) ltac:(split; discriminate))
    as (n & E & N & _).
  exists n. split; [exact E | exact N].
Defined.

(** ** The cycle scorer as a whole *)

(** Replaces the score of three known sub-scores by its value. *)
Ltac score_value :=
  repeat match goal with
  | |- context [clamp (weighted ?a ?b ?c)] =>
      let v := eval vm_compute in (clamp (weighted a b c)) in
      change (clamp (weighted a b c)) with v
  end.

Section CycleFacts.

Variable newDate : string -> JsDate.
Variable tomorrowDate : JsDate.

Local Abbreviation tomorrow := (getTomorrowDate tomorrowDate).
Local Abbreviation morningIndexOf times := (morningLoop newDate times tomorrow 0).
Local Abbreviation cycleScore := (calculateCycleScore newDate tomorrowDate).
Local Abbreviation readable := (cycleReadable newDate tomorrowDate).

Lemma cycleScore_found (w : Weather.Data) (h : Weather.Hourly)
    (times : list string) (speeds dirs temps codes : list jsval) :
  readable w h times speeds dirs temps codes ->
  let i := morningIndexOf times in
  let windSpeed := toNumber (at_ speeds i) in
  let normalizedDir := normalizeDir (toNumber (at_ dirs i)) in
  let temp := toNumber (at_ temps i) in
  let weatherCode := toNumber (at_ codes i) in
  cycleScore (Some w)
  = Return (Cycle.mkResult
              (clamp (weighted (cycleWindScore windSpeed)
                               (cycleWeatherScore weatherCode)
                               (cycleTempScore temp)))
              None
              (Some (roundNum windSpeed))
              (Some normalizedDir)
              (degreesToCardinal normalizedDir)
              (Some (roundNum temp))
              (Some (fst (cycleDirection normalizedDir)))
              (Some (snd (cycleDirection normalizedDir)))).
Proof.
  intros (H & T & I & S & D & P & K). cbv zeta.
  unfold calculateCycleScore, getMorningHourIndex.
  cbn [prop bind]. rewrite H. cbn [prop bind]. rewrite T, S, D, P, K.
  cbn [deref bind]. apply Z.eqb_neq in I. rewrite I.
  destruct (cycleDirection _). reflexivity.
Qed.

(** X12.  For a whole number of degrees [d] (of magnitude at most 10^9)
    as the wind direction of the morning hour, the cycle scorer reports
    the normalised direction [n = d mod 360], a cardinal label for it
    (never [undefined]), and a loop direction that tells where [n] lies:
    "ac" exactly for n >= 315 or n <= 45, "longport" exactly for
    135 <= n <= 225, "either" exactly in between. *)
Theorem cycle_direction_of_wind (w : Weather.Data) (h : Weather.Hourly)
    (times : list string) (speeds dirs temps codes : list jsval) (z : Z) :
  readable w h times speeds dirs temps codes ->
  at_ dirs (morningIndexOf times) = JNum (inject_Z z) ->
  - 1000000000 <= z <= 1000000000 ->
  exists r n l,
    cycleScore (Some w) = Return r
    /\ Cycle.windDirection r = Some (Fin n)
    /\ (n == inject_Z (z mod 360))%Q
    /\ Cycle.windCardinal r = Some l /\ In l directions
    /\ (Cycle.direction r = Some "ac" <-> 315 <= z mod 360 \/ z mod 360 <= 45)
    /\ (Cycle.direction r = Some "longport" <-> 135 <= z mod 360 <= 225)
    /\ (Cycle.direction r = Some "either"
        <-> 45 < z mod 360 < 135 \/ 225 < z mod 360 < 315).
Proof.
  intros R E _. rewrite (cycleScore_found _ _ _ _ _ _ _ R). cbv zeta.
  rewrite E. cbn [toNumber].
  destruct (normalizeDir_whole z) as (n & -> & N & L & U).
  destruct (cardinal_of_nonneg n L) as (l & I & C).
  eexists. exists n, l. split; [reflexivity |].
  cbn [Cycle.windDirection Cycle.windCardinal Cycle.direction].
  split; [reflexivity |]. split; [exact N |].
  split; [exact C |]. split; [exact I |].
  assert (forall a : Z, (inject_Z a <= n)%Q <-> a <= z mod 360) as GE
    by (intros a; rewrite N, Zle_Qle; reflexivity).
  assert (forall a : Z, (n <= inject_Z a)%Q <-> z mod 360 <= a) as LE
    by (intros a; rewrite N, Zle_Qle; reflexivity).
  assert (forall a : Z, (inject_Z a < n)%Q <-> a < z mod 360) as GT
    by (intros a; rewrite N, Zlt_Qlt; reflexivity).
  assert (forall a : Z, (n < inject_Z a)%Q <-> z mod 360 < a) as LT
    by (intros a; rewrite N, Zlt_Qlt; reflexivity).
  unfold cycleDirection. cbn [numGe numLe].
  change 315%Q with (inject_Z 315). change 45%Q with (inject_Z 45).
  change 135%Q with (inject_Z 135). change 225%Q with (inject_Z 225).
  qcases; cbn [fst];
    repeat match goal with
    | H : (inject_Z _ <= n)%Q |- _ => apply GE in H
    | H : (n <= inject_Z _)%Q |- _ => apply LE in H
    | H : (inject_Z _ < n)%Q |- _ => apply GT in H
    | H : (n < inject_Z _)%Q |- _ => apply LT in H
    end;
    repeat split; intros; try discriminate; try lia; try reflexivity.
Qed.

(** X13.  Elements missing at the morning index (each series shorter
    than the time array) do not make the cycle scorer throw: every
    comparison fails, the score is 1, the loop direction is "either",
    and the wind direction and its cardinal label are undefined.
    Elements that are [null] read as 0: no wind, code 0, a temperature
    of 0, for a score of 8 and the loop direction "ac". *)
Theorem cycle_score_of_gaps (w : Weather.Data) (h : Weather.Hourly)
    (times : list string) (speeds dirs temps codes : list jsval) :
  readable w h times speeds dirs temps codes ->
  let i := morningIndexOf times in
  (at_ speeds i = JUndef -> at_ dirs i = JUndef ->
   at_ temps i = JUndef -> at_ codes i = JUndef ->
   exists r, cycleScore (Some w) = Return r
             /\ Cycle.score r = 1
             /\ Cycle.direction r = Some "either"
             /\ Cycle.windDirection r = Some NaN
             /\ Cycle.windCardinal r = None)
  /\ (at_ speeds i = JNull -> at_ dirs i = JNull ->
      at_ temps i = JNull -> at_ codes i = JNull ->
      exists r, cycleScore (Some w) = Return r
                /\ Cycle.score r = 8
                /\ Cycle.direction r = Some "ac"
                /\ Cycle.windCardinal r = Some "N").
Proof.
  intros R. rewrite (cycleScore_found _ _ _ _ _ _ _ R). cbv zeta. split.
  - intros -> -> -> ->. eexists. split; [reflexivity |]. repeat split.
  - intros -> -> -> ->. eexists. split; [reflexivity |]. repeat split.
Qed.

(** X14.  With numbers at the morning index the cycle score is the
    rounded weighted sum itself, from 1 to 10 (the clamp never changes
    it).  A wind over 15 mph caps it at 6, a weather code over 59 at 7,
    and it is 10 exactly when the wind is under 8 mph, the code at most
    3 and the temperature from 55 to 75. *)
Theorem cycle_score_penalties (w : Weather.Data) (h : Weather.Hourly)
    (times : list string) (speeds dirs temps codes : list jsval)
    (speed temp code : Q) :
  readable w h times speeds dirs temps codes ->
  at_ speeds (morningIndexOf times) = JNum speed ->
  at_ temps (morningIndexOf times) = JNum temp ->
  at_ codes (morningIndexOf times) = JNum code ->
  exists r,
    cycleScore (Some w) = Return r
    /\ Cycle.score r
       = weighted (cycleWindScore (Fin speed)) (cycleWeatherScore (Fin code))
                  (cycleTempScore (Fin temp))
    /\ 1 <= Cycle.score r <= 10
    /\ ((15 < speed)%Q -> Cycle.score r <= 6)
    /\ ((59 < code)%Q -> Cycle.score r <= 7)
    /\ (Cycle.score r = 10
        <-> (speed < 8)%Q /\ (code <= 3)%Q /\ (55 <= temp)%Q /\ (temp <= 75)%Q).
Proof.
  intros R ES ET EC. rewrite (cycleScore_found _ _ _ _ _ _ _ R). cbv zeta.
  rewrite ES, ET, EC. cbn [toNumber].
  eexists. split; [reflexivity |]. cbn [Cycle.score].
  assert (clamp (weighted (cycleWindScore (Fin speed))
                          (cycleWeatherScore (Fin code))
                          (cycleTempScore (Fin temp)))
          = weighted (cycleWindScore (Fin speed))
                     (cycleWeatherScore (Fin code))
                     (cycleTempScore (Fin temp))) as Id.
  { unfold cycleWindScore, cycleWeatherScore, cycleTempScore.
    cbn [numLt numLe numGe numGt]. qcases; reflexivity. }
  split; [exact Id |]. clear Id.
  unfold cycleWindScore, cycleWeatherScore, cycleTempScore.
  cbn [numLt numLe numGe numGt].
  qcases; score_value;
    repeat split; try lia; try lra;
    try (intros; exfalso; lra);
    try (intros (? & ? & ? & ?); exfalso; lra).
Qed.

End CycleFacts.

Lemma cycle_direction_of_wind_witness :
  exists r,
    calculateCycleScore isoNewDate feb27 (Some (weatherWithCloud (JNum 40)))
    = Return r
    /\ Cycle.windCardinal r = Some "W"
    /\ Cycle.direction r = Some "either".
Proof.
  destruct (cycle_direction_of_wind isoNewDate feb27
              (weatherWithCloud (JNum 40))
              (Weather.mkHourly
                 (Some ["2024-02-27T05:00"; "2024-02-27T06:00"])
                 (Some [JNum 58; JNum 60])
                 (Some [JNum 70; JNum 65])
                 (Some [JNum 0; JNum 40])
                 (Some [JNum 10; JNum 6])
                 (Some [JNum 0; JNum 270])
                 (Some [JNum 0; JNum 1]))
              ["2024-02-27T05:00"; "2024-02-27T06:00"]
              [JNum 10; JNum 6] [JNum 0; JNum 270]
              [JNum 58; JNum 60] [JNum 0; JNum 1] 270)
    as (r & n & l & E & _).
  - repeat split; discriminate.
  - reflexivity.
  - split; discriminate.
  - exists r. split; [exact E |]. injection E as <-. split; reflexivity.
Defined.

Lemma cycle_score_of_gaps_witness :
  exists r,
    calculateCycleScore isoNewDate feb27 (Some weatherShortSeries) = Return r
    /\ Cycle.score r = 1
    /\ Cycle.direction r = Some "either".
Proof.
  destruct (cycle_score_of_gaps isoNewDate feb27 weatherShortSeries
              (Weather.mkHourly
                 (Some ["2024-02-27T05:00"; "2024-02-27T06:00"])
                 (Some [JNum 58]) (Some [JNum 70]) (Some [JNum 0])
                 (Some [JNum 10]) (Some [JNum 0]) (Some [JNum 0]))
              ["2024-02-27T05:00"; "2024-02-27T06:00"]
              [JNum 10] [JNum 0] [JNum 58] [JNum 0])
    as (G & _).
  - repeat split; discriminate.
  - destruct G as (r & E & S & D & _); try reflexivity.
    exists r. repeat split; assumption.
Defined.

Lemma cycle_score_penalties_witness :
  exists r,
    calculateCycleScore isoNewDate feb27 (Some (weatherWithCloud (JNum 40)))
    = Return r
    /\ Cycle.score r = 10.
Proof.
  destruct (cycle_score_penalties isoNewDate feb27
              (weatherWithCloud (JNum 40))
              (Weather.mkHourly
                 (Some ["2024-02-27T05:00"; "2024-02-27T06:00"])
                 (Some [JNum 58; JNum 60])
                 (Some [JNum 70; JNum 65])
                 (Some [JNum 0; JNum 40])
                 (Some [JNum 10; JNum 6])
                 (Some [JNum 0; JNum 270])
                 (Some [JNum 0; JNum 1]))
              ["2024-02-27T05:00"; "2024-02-27T06:00"]
              [JNum 10; JNum 6] [JNum 0; JNum 270]
              [JNum 58; JNum 60] [JNum 0; JNum 1] 6 60 1)
    as (r & E & _ & _ & _ & _ & T); try reflexivity.
  - repeat split; discriminate.
  - exists r. split; [exact E |]. apply T.
    repeat split; reflexivity || discriminate.
Defined.

(** ** The choice of the arbiter *)

Lemma recommendation_best_core (scores : Scores)
    (surfScoreData : option Surf.Result) (cycleData : Cycle.Result) :
  exists r,
    getRecommendation scores surfScoreData cycleData = Return r
    /\ (activity r = "SLEEP IN" <-> bestScore scores < 4)
    /\ (activity r = "GO SURF"
        -> surfOf scores = bestScore scores /\ 4 <= surfOf scores)
    /\ (activity r = "SUNRISE PHOTOS"
        -> photoOf scores = bestScore scores /\ 4 <= photoOf scores)
    /\ (activity r = "GO CYCLING"
        -> cycleOf scores = bestScore scores /\ 4 <= cycleOf scores).
Proof.
  destruct (getRecommendation_cases scores surfScoreData cycleData)
    as (best & rest & E & N & I & ->).
  assert (actScore best = bestScore scores) as B.
  { destruct (ranked_head scores) as (rest' & E').
    rewrite E in E'. injection E' as -> _.
    destruct scores as [s p c]. unfold winner, bestScore.
    cbn [surfOf photoOf cycleOf].
    destruct (Z.leb_spec p s), (Z.leb_spec c s), (Z.leb_spec c p);
      cbn [andb actScore]; lia. }
  rewrite <- B.
  destruct scores as [s p c]. cbn [surfOf photoOf cycleOf] in *.
  destruct (Z.ltb_spec (actScore best) 4) as [L | G].
  - eexists. split; [reflexivity |]. cbn [activity sleepIn].
    repeat split; intros; try discriminate; try lia; try reflexivity.
  - eexists. split; [reflexivity |]. cbn [activity].
    cbn [activitiesOf In] in I.
    destruct I as [<- | [<- | [<- | []]]];
      cbn [label actScore surfOf photoOf cycleOf] in *;
      repeat split; intros; try discriminate; try lia; try reflexivity.
Qed.

(** X15.  The arbiter never recommends an activity that is not the best:
    when it names an activity, that activity's score is the greatest of
    the three and at least 4; and it says to sleep in exactly when the
    greatest score is below 4. *)
Theorem recommendation_is_best (scores : Scores)
    (surfScoreData : option Surf.Result) (cycleData : Cycle.Result) :
  exists r,
    getRecommendation scores surfScoreData cycleData = Return r
    /\ (activity r = "SLEEP IN" <-> bestScore scores < 4)
    /\ (activity r = "GO SURF"
        -> surfOf scores = bestScore scores /\ 4 <= surfOf scores)
    /\ (activity r = "SUNRISE PHOTOS"
        -> photoOf scores = bestScore scores /\ 4 <= photoOf scores)
    /\ (activity r = "GO CYCLING"
        -> cycleOf scores = bestScore scores /\ 4 <= cycleOf scores).
Proof. apply recommendation_best_core. Qed.

(** X16.  The detail of a recommendation comes from the winner alone.
    When surf has the best score, at least 4, and ties or beats the
    others, the detail is the surf result's condition string (empty when
    that result is missing).  When cycle strictly beats both others with
    at least 4, the detail is the direction text of the cycle result,
    and empty when that text is missing or empty. *)
Theorem recommendation_detail (scores : Scores)
    (surfScoreData : option Surf.Result) (cycleData : Cycle.Result) :
  (photoOf scores <= surfOf scores -> cycleOf scores <= surfOf scores ->
   4 <= surfOf scores ->
   getRecommendation scores surfScoreData cycleData
   = Return (mkRecommendation "GO SURF"
               match surfScoreData with
               | Some sd => Surf.details sd
               | None => ""
               end
               "&#127940;"))
  /\ (surfOf scores < cycleOf scores -> photoOf scores < cycleOf scores ->
      4 <= cycleOf scores ->
      getRecommendation scores surfScoreData cycleData
      = Return (mkRecommendation "GO CYCLING"
                  (textOf (Cycle.directionText cycleData))
                  "&#128690;")).
Proof.
  destruct (getRecommendation_cases scores surfScoreData cycleData)
    as (best & rest & E & N & I & ->).
  destruct (ranked_head scores) as (rest' & E').
  rewrite E in E'. injection E' as -> _.
  destruct scores as [s p c]. unfold winner. cbn [surfOf photoOf cycleOf].
  split.
  - intros A B G.
    apply Z.leb_le in A, B. rewrite A, B. cbn [andb name actScore label icons].
    destruct (Z.ltb_spec s 4); [lia | reflexivity].
  - intros A B G.
    assert ((c <=? s) = false) as -> by (apply Z.leb_gt; lia).
    assert ((c <=? p) = false) as -> by (apply Z.leb_gt; lia).
    rewrite andb_false_r. cbn [name actScore label icons].
    destruct (Z.ltb_spec c 4); [lia |].
    destruct (Cycle.directionText cycleData) as [[| a text] |]; reflexivity.
Qed.

Lemma recommendation_detail_witness :
  getRecommendation (mkScores 5 5 9) None
    (Cycle.mkResult 9 None None None None None (Some "ac")
       (Some "Go to Atlantic City first, wind at your back coming home"))
  = Return (mkRecommendation "GO CYCLING"
              "Go to Atlantic City first, wind at your back coming home"
              "&#128690;").
Proof.
  apply (proj2 (recommendation_detail (mkScores 5 5 9) None
                  (Cycle.mkResult 9 None None None None None (Some "ac")
                     (Some "Go to Atlantic City first, wind at your back coming home"))));
    first [reflexivity | discriminate].
Defined.

Lemma recommendation_is_best_witness :
  exists r,
    getRecommendation (mkScores 7 7 5) None
      (Cycle.mkResult 5 None None None None None None None) = Return r
    /\ activity r = "GO SURF"
    /\ surfOf (mkScores 7 7 5) = bestScore (mkScores 7 7 5).
Proof.
  destruct (recommendation_is_best (mkScores 7 7 5) None
              (Cycle.mkResult 5 None None None None None None None))
    as (r & E & _ & S & _).
  exists r. split; [exact E |].
  assert (activity r = "GO SURF") as A by (injection E as <-; reflexivity).
  split; [exact A | exact (proj1 (S A))].
Defined.

(** ** A run of the scorers *)

Section RunFacts.

Variable newDate : string -> JsDate.
Variable tomorrowDate : JsDate.
Variable toFixed1 : Q -> string.

Local Abbreviation run := (calculateAllScores newDate tomorrowDate toFixed1).

Lemma surfScore_range (marineData : option Marine.Data)
    (weatherData : option Weather.Data) (r : Surf.Result) :
  calculateSurfScore newDate tomorrowDate toFixed1 marineData weatherData
  = Return r ->
  0 <= Surf.score r <= 10.
Proof.
  intros R.
  destruct (surfScore_inversion newDate tomorrowDate toFixed1 _ _ _ R)
    as [-> | [-> | (h & p & w & _ & _ & _ & _ & _ & _ & ->)]];
    [cbn; lia | cbn; lia |].
  pose proof (clamp_range (weighted h p w)). lia.
Qed.

Lemma photoScore_range (weather : option Weather.Data) (r : Photo.Result) :
  calculatePhotoScore newDate tomorrowDate weather = Return r ->
  0 <= Photo.score r <= 10.
Proof.
  clear toFixed1.
  unfold calculatePhotoScore, getMorningHourIndex.
  destruct weather as [w |]; [| discriminate]. cbn [prop bind].
  destruct (Weather.hourly w) as [h |]; [| discriminate]. cbn [prop bind].
  destruct (Weather.time h) as [times |]; [| discriminate]. cbn [deref bind].
  destruct (_ =? -1); [intros [= <-]; cbn; lia |].
  destruct (Weather.cloud_cover h) as [covers |]; [| discriminate].
  cbn [deref bind].
  match goal with
  | |- context [photoBand ?x] =>
      pose proof (photoBand_values x) as V; destruct (photoBand x) as [v t]
  end.
  intros [= <-]. cbn [Photo.score fst In] in *. lia.
Qed.

Lemma cycleScore_range (weather : option Weather.Data) (r : Cycle.Result) :
  calculateCycleScore newDate tomorrowDate weather = Return r ->
  0 <= Cycle.score r <= 10.
Proof.
  clear toFixed1.
  unfold calculateCycleScore, getMorningHourIndex.
  destruct weather as [w |]; [| discriminate]. cbn [prop bind].
  destruct (Weather.hourly w) as [h |]; [| discriminate]. cbn [prop bind].
  destruct (Weather.time h) as [times |]; [| discriminate]. cbn [deref bind].
  destruct (_ =? -1); [intros [= <-]; cbn; lia |].
  destruct (Weather.wind_speed_10m h) as [speeds |]; [| discriminate].
  destruct (Weather.wind_direction_10m h) as [dirs |]; [| discriminate].
  destruct (Weather.temperature_2m h) as [temps |]; [| discriminate].
  destruct (Weather.weather_code h) as [codes |]; [| discriminate].
  cbn [deref bind]. cbv zeta.
  destruct (cycleDirection _) as [direction text].
  intros [= <-]. cbn [Cycle.score].
  match goal with |- context [clamp ?x] => pose proof (clamp_range x) end.
  lia.
Qed.

(** X17.  Whenever the three scorers return on the payloads of the
    state, [calculateAllScores] returns too.  It leaves the payloads as
    they were, stores the three results with their scores, each from 0
    to 10, in the score table, and stores the arbiter's recommendation
    for that table: to sleep in exactly when the greatest stored score
    is below 4. *)
Theorem run_stores_scores (state : App.State)
    (sr : Surf.Result) (pr : Photo.Result) (cr : Cycle.Result) :
  calculateSurfScore newDate tomorrowDate toFixed1
    (App.marineData state) (App.weather state) = Return sr ->
  calculatePhotoScore newDate tomorrowDate (App.weather state) = Return pr ->
  calculateCycleScore newDate tomorrowDate (App.weather state) = Return cr ->
  exists state' rec,
    run state = (state', Return tt)
    /\ App.weather state' = App.weather state
    /\ App.marineData state' = App.marineData state
    /\ App.surfScoreData state' = Some sr
    /\ App.photoData state' = Some pr
    /\ App.cycleData state' = Some cr
    /\ App.scores state'
       = mkScores (Surf.score sr) (Photo.score pr) (Cycle.score cr)
    /\ 0 <= Surf.score sr <= 10 /\ 0 <= Photo.score pr <= 10
    /\ 0 <= Cycle.score cr <= 10
    /\ App.recommendation state' = Some rec
    /\ getRecommendation (App.scores state') (Some sr) cr = Return rec
    /\ (activity rec = "SLEEP IN" <-> bestScore (App.scores state') < 4).
Proof.
  intros ES EP EC.
  pose proof (surfScore_range _ _ _ ES) as BS.
  pose proof (photoScore_range _ _ EP) as BP.
  pose proof (cycleScore_range _ _ EC) as BC.
  destruct (recommendation_best_core
              (mkScores (Surf.score sr) (Photo.score pr) (Cycle.score cr))
              (Some sr) cr) as (rec & ER & SL & _).
  unfold calculateAllScores. rewrite ES. cbn [App.weather]. rewrite EP.
  cbn [App.weather]. rewrite EC.
  cbn [App.scores surfOf photoOf cycleOf]. rewrite ER.
  eexists. exists rec.
  split; [reflexivity |].
  cbn [App.weather App.marineData App.surfScoreData App.photoData
       App.cycleData App.scores App.recommendation].
  repeat split; try assumption; try lia; apply SL.
Qed.

(** X18.  When the weather time array holds no morning hour of the
    target date, and the marine data is missing, has no hourly block, or
    holds no morning hour either, the run returns, whatever other series
    are missing: the three scores are 0 and the recommendation is to
    sleep in. *)
Theorem run_without_forecast (state : App.State) :
  weatherWithoutMorning newDate tomorrowDate (App.weather state) ->
  marineWithoutMorning newDate tomorrowDate (App.marineData state) ->
  exists state',
    run state = (state', Return tt)
    /\ App.scores state' = mkScores 0 0 0
    /\ App.recommendation state' = Some sleepIn.
Proof.
  intros (w & h & times & EW & EH & ET & I) M.
  assert (exists msg,
            calculateSurfScore newDate tomorrowDate toFixed1
              (App.marineData state) (App.weather state)
            = Return (Surf.noData msg)) as (msg & ES).
  { unfold marineWithoutMorning in M. unfold calculateSurfScore.
    destruct (App.marineData state) as [md |]; [| eexists; reflexivity].
    destruct (Marine.hourly md) as [mh |]; [| eexists; reflexivity].
    destruct M as (mt & -> & E). cbn [deref bind]. rewrite E.
    eexists. reflexivity. }
  unfold calculateAllScores. rewrite ES. cbn [App.weather]. rewrite EW.
  rewrite (photoScore_not_found newDate tomorrowDate w h times EH ET I).
  cbn [App.weather].
  assert (calculateCycleScore newDate tomorrowDate (Some w)
          = Return (Cycle.mkResult 0 (Some "No data") None None None None
                                   None None)) as ->.
  { unfold calculateCycleScore, getMorningHourIndex. cbn [prop bind].
    rewrite EH. cbn [prop bind]. rewrite ET. cbn [deref bind].
    now rewrite I. }
  eexists. split; [reflexivity |]. split; reflexivity.
Qed.

(** X19.  A run that throws has not reached the arbiter: the
    recommendation, the cycle result and the cycle score are what they
    were before the run, and so are the payloads.  (The surf and photo
    fields may already hold the new results.) *)
Theorem run_throw_keeps_recommendation (state state' : App.State)
    (e : string) :
  run state = (state', Throw e) ->
  App.recommendation state' = App.recommendation state
  /\ App.cycleData state' = App.cycleData state
  /\ cycleOf (App.scores state') = cycleOf (App.scores state)
  /\ App.weather state' = App.weather state
  /\ App.marineData state' = App.marineData state.
Proof.
  unfold calculateAllScores.
  destruct (calculateSurfScore _ _ _ _ _) as [sr | e1];
    [| intros [= <- _]; repeat split].
  cbn [App.weather].
  destruct (calculatePhotoScore _ _ _) as [pr | e2];
    [| intros [= <- _]; repeat split].
  cbn [App.weather].
  destruct (calculateCycleScore _ _ _) as [cr | e3];
    [| intros [= <- _]; repeat split].
  cbn [App.scores surfOf photoOf cycleOf].
  destruct (recommendation_best_core
              (mkScores (Surf.score sr) (Photo.score pr) (Cycle.score cr))
              (Some sr) cr) as (rec & -> & _).
  discriminate.
Qed.

End RunFacts.

Lemma run_stores_scores_witness :
  exists state',
    calculateAllScores isoNewDate feb27 decimalToFixed1
      (loadedState (Some (weatherWithCloud (JNum 40)))
                   (Some (marineWith (JNum (32 # 10)) JNull)))
    = (state', Return tt)
    /\ App.scores state' = mkScores 8 10 10.
Proof.
  destruct (run_stores_scores isoNewDate feb27 decimalToFixed1
              (loadedState (Some (weatherWithCloud (JNum 40)))
                           (Some (marineWith (JNum (32 # 10)) JNull)))
              _ _ _ eq_refl eq_refl eq_refl)
    as (state' & rec & E & _ & _ & _ & _ & _ & S & _).
  exists state'. split; [exact E | exact S].
Defined.

Lemma run_without_forecast_witness :
  exists state',
    calculateAllScores isoNewDate feb27 decimalToFixed1
      (loadedState (Some weatherOfToday) None)
    = (state', Return tt)
    /\ App.scores state' = mkScores 0 0 0
    /\ App.recommendation state' = Some sleepIn.
Proof.
  apply (run_without_forecast isoNewDate feb27 decimalToFixed1
           (loadedState (Some weatherOfToday) None)).
  - eexists. eexists. eexists. repeat split.
  - exact I.
Defined.

Lemma run_throw_keeps_recommendation_witness :
  exists state',
    calculateAllScores isoNewDate feb27 decimalToFixed1
      (loadedState (Some weatherAsRequested) None)
    = (state', Throw TypeError)
    /\ App.recommendation state' = None
    /\ App.scores state' = mkScores 0 10 0.
Proof.
  eexists. split; [reflexivity |].
  split; [| reflexivity].
  exact (proj1 (run_throw_keeps_recommendation isoNewDate feb27
                  decimalToFixed1
                  (loadedState (Some weatherAsRequested) None) _ _ eq_refl)).
Defined.

(** ** The score colour of a card *)

Lemma classRemove_scores (classList : list string) :
  classRemove ["score-low"; "score-medium"; "score-high"] classList
  = filter (fun c => negb (isScoreClass c)) classList.
Proof.
  unfold classRemove. apply filter_ext. intros c.
  unfold isScoreClass. cbn [existsb].
  now rewrite orb_false_r, orb_assoc.
Qed.

Lemma no_score_class_left (classList : list string) (c : string) :
  isScoreClass c = true ->
  existsb (String.eqb c) (filter (fun x => negb (isScoreClass x)) classList)
  = false.
Proof.
  intros S. induction classList as [| x rest IH]; [reflexivity |].
  cbn [filter]. destruct (isScoreClass x) eqn:X; cbn [negb]; [exact IH |].
  cbn [existsb]. rewrite IH, orb_false_r.
  destruct (String.eqb_spec c x) as [-> | N]; [congruence | reflexivity].
Qed.

Lemma filter_none (A : Type) (p : A -> bool) (l : list A) :
  filter p (filter (fun x => negb (p x)) l) = [].
Proof.
  induction l as [| x rest IH]; [reflexivity |].
  cbn [filter]. destruct (p x) eqn:X; cbn [negb filter]; [exact IH |].
  now rewrite X.
Qed.

Lemma filter_twice (A : Type) (p : A -> bool) (l : list A) :
  filter p (filter p l) = filter p l.
Proof.
  induction l as [| x rest IH]; [reflexivity |].
  cbn [filter]. destruct (p x) eqn:X; [| exact IH].
  cbn [filter]. now rewrite X, IH.
Qed.

Lemma updateScoreColor_value (classList : list string) (score : Z) :
  updateScoreColor classList score
  = (filter (fun c => negb (isScoreClass c)) classList
     ++ [scoreClassOf score])%list.
Proof.
  unfold updateScoreColor, scoreClassOf. rewrite classRemove_scores.
  destruct (7 <=? score); [| destruct (5 <=? score)];
    unfold classAdd; now rewrite no_score_class_left.
Qed.

(** X20.  After [updateScoreColor] the card carries exactly one score
    class, whatever it carried before: score-high for a score of 7 or
    more, score-medium for 5 or 6, score-low below 5.  The other classes
    of the card stay, in their order, and running it again with the same
    score changes nothing. *)
Theorem updateScoreColor_one_class (classList : list string) (score : Z) :
  filter isScoreClass (updateScoreColor classList score) = [scoreClassOf score]
  /\ filter (fun c => negb (isScoreClass c)) (updateScoreColor classList score)
     = filter (fun c => negb (isScoreClass c)) classList
  /\ updateScoreColor (updateScoreColor classList score) score
     = updateScoreColor classList score
  /\ (scoreClassOf score = "score-high" <-> 7 <= score)
  /\ (scoreClassOf score = "score-medium" <-> 5 <= score < 7)
  /\ (scoreClassOf score = "score-low" <-> score < 5).
Proof.
  assert (isScoreClass (scoreClassOf score) = true) as S
    by (unfold scoreClassOf; destruct (7 <=? score), (5 <=? score);
        reflexivity).
  assert (filter (fun c => negb (isScoreClass c))
            (updateScoreColor classList score)
          = filter (fun c => negb (isScoreClass c)) classList) as K.
  { rewrite updateScoreColor_value, filter_app, filter_twice.
    cbn [filter]. rewrite S. cbn [negb]. apply app_nil_r. }
  split; [| split; [exact K | split]].
  - rewrite updateScoreColor_value, filter_app, filter_none.
    cbn [filter]. now rewrite S.
  - rewrite (updateScoreColor_value (updateScoreColor classList score)).
    rewrite K. symmetry. apply updateScoreColor_value.
  - unfold scoreClassOf.
    destruct (Z.leb_spec 7 score), (Z.leb_spec 5 score);
      repeat split; intros; try discriminate; try lia; try reflexivity.
Qed.

(** ** The Surfline tide formatters *)

Section SurflineFacts.

Variable tomorrowDate : JsDate.
Variable toFixed1 : Q -> string.
Variable newDateMs : num -> JsDate.
Variable formatTimeMs : num -> string.

Local Abbreviation tomorrow := (getTomorrowDate tomorrowDate).
Local Abbreviation kept := (surflineKept newDateMs tomorrow).
Local Abbreviation longRender :=
  (fun t => Surfline.mtype t ++ ": " ++ Surfline.mtime t).

Lemma tideInfoLoop_kept (tides : list Surfline.Tide)
    (morningTides : list Surfline.Morning) :
  map longRender
      (tideInfoLoop toFixed1 newDateMs formatTimeMs tomorrow tides morningTides)
  = (map longRender morningTides
     ++ map (surflineLongText formatTimeMs) (filter kept tides))%list.
Proof.
  revert morningTides.
  induction tides as [| tide rest IH]; intros acc; cbn [tideInfoLoop filter map].
  - now rewrite app_nil_r.
  - unfold surflineKept at 1.
    destruct (Surfline.type tide =? "HIGH")%string eqn:H,
             (Surfline.type tide =? "LOW")%string eqn:L;
      cbn [negb andb orb];
      try (destruct (surflineMorning newDateMs tomorrow tide);
           rewrite IH; [| reflexivity];
           rewrite map_app, <- app_assoc; cbn [map app];
           unfold surflineLongText; rewrite H; reflexivity).
    apply IH.
Qed.

Lemma shortTideLoop_kept (tides : list Surfline.Tide)
    (morningTides : list Tide.Morning) :
  map renderTide
      (shortTideLoop newDateMs formatTimeMs tomorrow tides morningTides)
  = (map renderTide morningTides
     ++ map (surflineShortText formatTimeMs) (filter kept tides))%list.
Proof.
  revert morningTides.
  induction tides as [| tide rest IH]; intros acc;
    cbn [shortTideLoop filter map].
  - now rewrite app_nil_r.
  - unfold surflineKept at 1.
    destruct (Surfline.type tide =? "HIGH")%string eqn:H,
             (Surfline.type tide =? "LOW")%string eqn:L;
      cbn [negb andb orb];
      try (destruct (surflineMorning newDateMs tomorrow tide);
           rewrite IH; [| reflexivity];
           rewrite map_app, <- app_assoc; cbn [map app];
           unfold surflineShortText, renderTide at 2; rewrite H;
           reflexivity).
    apply IH.
Qed.

(** X21.  The two Surfline formatters keep the same entries: the HIGH
    and LOW ones that fall on the target date at an hour from 4 to 12,
    in source order.  [getTideInfo] joins "High: <time>" or
    "Low: <time>" with " | " and [getShortTideInfo] joins "H <time>" or
    "L <time>" with ", "; with nothing kept they give "Check tide times"
    and "--", and with any level of the data missing
    "Tide data unavailable" and "--". *)
Theorem surfline_formatters_agree (surfData : option Surfline.SurfData) :
  (surflineTides surfData = None ->
   getTideInfo tomorrowDate toFixed1 newDateMs formatTimeMs surfData
   = "Tide data unavailable"
   /\ getShortTideInfo tomorrowDate newDateMs formatTimeMs surfData = "--")
  /\ (forall tides,
        surflineTides surfData = Some tides ->
        getTideInfo tomorrowDate toFixed1 newDateMs formatTimeMs surfData
        = match filter kept tides with
          | [] => "Check tide times"
          | entries => join " | " (map (surflineLongText formatTimeMs) entries)
          end
        /\ getShortTideInfo tomorrowDate newDateMs formatTimeMs surfData
           = match filter kept tides with
             | [] => "--"
             | entries =>
                 join ", " (map (surflineShortText formatTimeMs) entries)
             end).
Proof.
  unfold getTideInfo, getShortTideInfo. split.
  - intros ->. split; reflexivity.
  - intros tides ->. split.
    + pose proof (tideInfoLoop_kept tides []) as K. cbn [map app] in K.
      destruct (tideInfoLoop _ _ _ _ _ _) as [| e es];
        destruct (filter kept tides) as [| k ks]; try discriminate K;
        [reflexivity |].
      now rewrite K.
    + pose proof (shortTideLoop_kept tides []) as K. cbn [map app] in K.
      destruct (shortTideLoop _ _ _ _ _) as [| e es];
        destruct (filter kept tides) as [| k ks]; try discriminate K;
        [reflexivity |].
      now rewrite K.
Qed.

End SurflineFacts.

Lemma surfline_formatters_agree_witness :
  getTideInfo feb27 decimalToFixed1 sixOClock (fun _ => "6:00 AM")
    surflineExample
  = "High: 6:00 AM"
  /\ getShortTideInfo feb27 sixOClock (fun _ => "6:00 AM") surflineExample
     = "H 6:00 AM".
Proof.
  exact (proj2 (surfline_formatters_agree feb27 decimalToFixed1 sixOClock
                  (fun _ => "6:00 AM") surflineExample)
               [Surfline.mkTide "HIGH" (JNum 1709031600) (Some (41 # 10));
                Surfline.mkTide "NORMAL" (JNum 1709035200) None]
               eq_refl).
Defined.

(** ** The tide formatter on a prediction without a clock *)

Lemma tideStep_throws_TypeError (target : string) (p : Tide.Prediction)
    (e : string) :
  tideStep target p = Throw e -> e = TypeError.
Proof.
  unfold tideStep.
  destruct (negb _ && negb _); [discriminate |].
  destruct (index (split " " (Tide.t p)) 0) as [d |]; [| discriminate].
  destruct (d =? target)%string; [| discriminate].
  destruct (index (split " " (Tide.t p)) 1) as [clock |];
    cbn [prop bind]; [| now intros [= <-]].
  destruct (hourBetween _ 4 12); [| discriminate].
  destruct (parseInt10 _); discriminate.
Qed.

Lemma tideLoop_throws (target : string) (predictions : list Tide.Prediction)
    (p : Tide.Prediction) :
  In p predictions -> tideStep target p = Throw TypeError ->
  forall morningTides,
    tideLoop target predictions morningTides = Throw TypeError.
Proof.
  intros I T. induction predictions as [| q rest IH]; [contradiction |].
  intros acc. cbn [tideLoop].
  destruct (tideStep target q) as [entry | e] eqn:Q.
  - cbn [bind]. destruct I as [-> | I]; [congruence |]. now apply IH.
  - cbn [bind]. now rewrite (tideStep_throws_TypeError _ _ _ Q).
Qed.

(** X22.  A prediction of type H or L whose text is the target date
    alone, with no clock after it, makes [getNoaaTideInfo] throw a
    TypeError, wherever it stands in the list and whatever the other
    predictions are. *)
Theorem tide_formatter_throws_without_clock (tomorrowDate : JsDate)
    (predictions : list Tide.Prediction) (p : Tide.Prediction) :
  In p predictions ->
  Tide.type p = "H" \/ Tide.type p = "L" ->
  split " " (Tide.t p) = [getTomorrowDate tomorrowDate] ->
  getNoaaTideInfo tomorrowDate (Some predictions) = Throw TypeError.
Proof.
  intros I K S.
  assert (tideStep (getTomorrowDate tomorrowDate) p = Throw TypeError) as T.
  { unfold tideStep. rewrite S.
    cbn [index Z.ltb Z.compare Z.to_nat nth_error].
    rewrite String.eqb_refl.
    destruct K as [-> | ->]; reflexivity. }
  unfold getNoaaTideInfo.
  destruct predictions as [| q rest]; [contradiction |].
  now rewrite (tideLoop_throws _ _ p I T).
Qed.

Lemma tide_formatter_throws_without_clock_witness :
  getNoaaTideInfo feb27
    (Some [Tide.mkPrediction "2024-02-27 05:45" "4.123" "H";
           Tide.mkPrediction "2024-02-27" "0.212" "L"])
  = Throw TypeError.
Proof.
  apply (tide_formatter_throws_without_clock feb27 _
           (Tide.mkPrediction "2024-02-27" "0.212" "L")).
  - right. now left.
  - now right.
  - reflexivity.
Defined.

(** ** The caches of the service worker *)

Module WorkerFacts.
Import Worker.

Lemma cachePut_match (cache : Cache) (u : string) (response : Response) :
  cacheMatch (cachePut cache u response) u = Some response.
Proof.
  induction cache as [| [u' old] rest IH]; cbn [cachePut cacheMatch].
  - now rewrite String.eqb_refl.
  - destruct (u' =? u)%string eqn:E; cbn [cacheMatch]; now rewrite E.
Qed.

Lemma cachePut_other (cache : Cache) (u u' : string) (response : Response) :
  u' <> u ->
  cacheMatch (cachePut cache u response) u' = cacheMatch cache u'.
Proof.
  intros N. induction cache as [| [v old] rest IH]; cbn [cachePut cacheMatch].
  - destruct (String.eqb_spec u u'); [congruence | reflexivity].
  - destruct (String.eqb_spec v u) as [-> | D]; cbn [cacheMatch].
    + destruct (String.eqb_spec u u'); [congruence | reflexivity].
    + now rewrite IH.
Qed.

Lemma putIn_match (caches : CacheStorage) (cacheName u : string)
    (response : Response) :
  (forall n c, In (n, c) caches -> n <> cacheName -> cacheMatch c u = None) ->
  storageMatch (putIn caches cacheName u response) u = Some response.
Proof.
  induction caches as [| [n c] rest IH]; intros H; cbn [putIn storageMatch].
  - cbn. now rewrite String.eqb_refl.
  - destruct (String.eqb_spec n cacheName) as [-> | D]; cbn [storageMatch].
    + now rewrite cachePut_match.
    + rewrite (H n c (or_introl eq_refl) D).
      apply IH. intros n' c' I. apply H. now right.
Qed.

Lemma putIn_other (caches : CacheStorage) (cacheName u u' : string)
    (response : Response) :
  u' <> u ->
  storageMatch (putIn caches cacheName u response) u' = storageMatch caches u'.
Proof.
  intros N. induction caches as [| [n c] rest IH]; cbn [putIn storageMatch].
  - cbn. destruct (String.eqb_spec u u'); [congruence | reflexivity].
  - destruct (String.eqb_spec n cacheName) as [-> | D]; cbn [storageMatch].
    + now rewrite cachePut_other.
    + now rewrite IH.
Qed.

Lemma storageMatch_none (caches : CacheStorage) (u : string) :
  storageMatch caches u = None ->
  forall n c, In (n, c) caches -> cacheMatch c u = None.
Proof.
  induction caches as [| [n c] rest IH]; intros M n' c' I; [contradiction |].
  cbn [storageMatch] in M.
  destruct (cacheMatch c u) eqn:E; [discriminate |].
  destruct I as [[= <- <-] | I]; [exact E | eapply IH; eauto].
Qed.

Lemma fold_delete (names : list string) (caches : CacheStorage) :
  fold_left delete names caches
  = filter (fun entry => negb (existsb (String.eqb (fst entry)) names)) caches.
Proof.
  revert caches. induction names as [| n rest IH]; intros caches; cbn [fold_left].
  - cbn [existsb negb]. induction caches as [| e cs IHc]; [reflexivity |].
    cbn [filter]. now rewrite <- IHc.
  - rewrite IH. unfold delete.
    induction caches as [| e cs IHc]; [reflexivity |].
    cbn [filter existsb].
    destruct (fst e =? n)%string; cbn [negb orb filter]; rewrite IHc;
      reflexivity.
Qed.

Lemma onActivate_filter (caches : CacheStorage) :
  onActivate caches
  = filter (fun entry => (fst entry =? CACHE_NAME)%string) caches.
Proof.
  unfold onActivate. rewrite fold_delete. apply filter_ext_in.
  intros [n c] I. cbn [fst].
  destruct (String.eqb_spec n CACHE_NAME) as [-> | D].
  - assert (existsb (String.eqb CACHE_NAME)
              (filter (fun name => negb (name =? CACHE_NAME)%string)
                      (keys caches)) = false) as ->; [| reflexivity].
    apply not_true_is_false. intros X.
    apply existsb_exists in X as (x & F & Q).
    apply filter_In in F as [_ F]. apply String.eqb_eq in Q. subst x.
    rewrite String.eqb_refl in F. discriminate.
  - assert (existsb (String.eqb n)
              (filter (fun name => negb (name =? CACHE_NAME)%string)
                      (keys caches)) = true) as ->; [| reflexivity].
    apply existsb_exists. exists n. split; [| apply String.eqb_refl].
    apply filter_In. split.
    + unfold keys. apply in_map_iff. now exists (n, c).
    + apply negb_true_iff. now apply String.eqb_neq.
Qed.

(** X23.  The [activate] handler keeps the caches named
    [dawn-patrol-v5], with their contents and in their order, and
    deletes every other cache: no cache of another name survives, and in
    particular not [dawn-patrol-v5-api], the cache in which the [fetch]
    handler stores API responses. *)
Theorem activate_keeps_static_cache_only (caches : CacheStorage) :
  onActivate caches
  = filter (fun entry => (fst entry =? CACHE_NAME)%string) caches
  /\ Forall (fun name => name = CACHE_NAME) (keys (onActivate caches))
  /\ ~ In apiCacheName (keys (onActivate caches))
  /\ forall c, In (CACHE_NAME, c) caches -> In (CACHE_NAME, c) (onActivate caches).
Proof.
  split; [apply onActivate_filter |].
  rewrite onActivate_filter.
  assert (Forall (fun name => name = CACHE_NAME)
            (keys (filter (fun entry => (fst entry =? CACHE_NAME)%string)
                          caches))) as F.
  { unfold keys. apply Forall_forall. intros n I.
    apply in_map_iff in I as ([n' c] & <- & I).
    apply filter_In in I as [_ I]. now apply String.eqb_eq in I. }
  split; [exact F |]. split.
  - intros I. rewrite Forall_forall in F. specialize (F _ I). discriminate F.
  - intros c I. apply filter_In. split; [exact I | apply String.eqb_refl].
Qed.

Lemma openCache_match (caches : CacheStorage) (cacheName u : string) :
  storageMatch (openCache caches cacheName) u = storageMatch caches u.
Proof.
  unfold openCache. destruct (existsb _ caches); [reflexivity |].
  induction caches as [| [n c] rest IH]; [reflexivity |].
  cbn [app storageMatch]. now rewrite IH.
Qed.

(** X24.  An API call that the network answers with an ok response is
    answered with that response.  When its status is not 206 the
    response is stored: if no cache other than the API cache holds the
    URL, the same call made later with the network down is answered with
    the stored response.  A response of status 206 is not stored: the
    later call is answered with what the caches held before. *)
Theorem api_call_offline_fallback (network offline : string -> option Response)
    (caches : CacheStorage) (request : Request) (response : Response) :
  isApiCall (hostname request) = true ->
  network (url request) = Some response ->
  ok response = true ->
  offline (url request) = None ->
  fst (onFetch network caches request) = Resolved (Some response)
  /\ (status response <> 206 ->
      (forall n c, In (n, c) caches -> n <> apiCacheName ->
                   cacheMatch c (url request) = None) ->
      fst (onFetch offline (snd (onFetch network caches request)) request)
      = Resolved (Some response))
  /\ (status response = 206 ->
      fst (onFetch offline (snd (onFetch network caches request)) request)
      = Resolved (storageMatch caches (url request))).
Proof.
  intros A N K O. unfold onFetch. rewrite A, N, K. cbn [fst snd].
  split; [reflexivity |]. rewrite O. cbn [fst]. split.
  - intros S H. apply Z.eqb_neq in S. rewrite S.
    now rewrite (putIn_match caches (CACHE_NAME ++ "-api") _ _ H).
  - intros S. rewrite S. cbn [Z.eqb Pos.eqb].
    now rewrite openCache_match.
Qed.

(** X25.  A request that is not an API call is served cache first.  A
    cached response is returned without the network having a say and
    without any write.  On a miss a response of status 200 is returned
    and stored, and from then on the same request is answered with it
    whatever the network would return. *)
Theorem static_asset_cache_first (network network' : string -> option Response)
    (caches : CacheStorage) (request : Request) (response : Response) :
  isApiCall (hostname request) = false ->
  (storageMatch caches (url request) = Some response ->
   onFetch network caches request = (Resolved (Some response), caches))
  /\ (storageMatch caches (url request) = None ->
      network (url request) = Some response -> status response = 200 ->
      fst (onFetch network caches request) = Resolved (Some response)
      /\ onFetch network' (snd (onFetch network caches request)) request
         = (Resolved (Some response), snd (onFetch network caches request))).
Proof.
  intros A. unfold onFetch. rewrite A. split.
  - now intros ->.
  - intros M N S. rewrite M, N, S. cbn [Z.eqb Pos.eqb negb fst snd].
    split; [reflexivity |].
    rewrite (putIn_match caches CACHE_NAME (url request) response);
      [reflexivity |].
    intros n c I _. exact (storageMatch_none _ _ M n c I).
Qed.

(** X26.  The [fetch] handler writes a response to the caches only when
    the network has just returned it for that request: with an ok status
    other than 206 for an API call, and with status exactly 200, after a
    miss in the caches, for any other request.  Otherwise no entry is
    written: the caches are as they were, or, for an API answer of
    status 206, an empty API cache has been opened.  What the caches
    answer for any other URL is unchanged in every case. *)
Theorem fetch_stores_only_ok_responses (network : string -> option Response)
    (caches : CacheStorage) (request : Request) :
  (snd (onFetch network caches request) = caches
   \/ (exists response,
         isApiCall (hostname request) = true
         /\ network (url request) = Some response
         /\ status response = 206
         /\ snd (onFetch network caches request)
            = openCache caches apiCacheName)
   \/ (exists response,
         network (url request) = Some response
         /\ ok response = true
         /\ status response <> 206
         /\ (isApiCall (hostname request) = false ->
             status response = 200
             /\ storageMatch caches (url request) = None)
         /\ fst (onFetch network caches request) = Resolved (Some response)
         /\ snd (onFetch network caches request)
            = putIn caches
                (if isApiCall (hostname request) then apiCacheName
                 else CACHE_NAME)
                (url request) response))
  /\ (forall u, u <> url request ->
       storageMatch (snd (onFetch network caches request)) u
       = storageMatch caches u)
  /\ (forall response,
       storageMatch (snd (onFetch network caches request)) (url request)
       = Some response ->
       storageMatch caches (url request) = Some response
       \/ (network (url request) = Some response
           /\ ok response = true /\ status response <> 206
           /\ (isApiCall (hostname request) = false
               -> status response = 200))).
Proof.
  assert (forall cs name u r,
            storageMatch (putIn cs name u r) u = Some r
            \/ storageMatch (putIn cs name u r) u = storageMatch cs u) as P.
  { intros cs name u r.
    induction cs as [| [n c] rest IH]; cbn [putIn storageMatch].
    - left. cbn. now rewrite String.eqb_refl.
    - destruct (String.eqb_spec n name) as [-> | D]; cbn [storageMatch].
      + left. now rewrite cachePut_match.
      + destruct (cacheMatch c u); [now right | exact IH]. }
  unfold onFetch.
  destruct (isApiCall (hostname request)).
  - destruct (network (url request)) as [response |] eqn:N; cbn [fst snd];
      [| split; [now left |
                 split; [reflexivity | intros r M; left; congruence]]].
    destruct (ok response) eqn:K;
      [| split; [now left |
                 split; [reflexivity | intros r M; left; congruence]]].
    destruct (Z.eqb_spec (status response) 206) as [S | S].
    + split; [| split].
      * right. left. exists response. repeat split; assumption.
      * intros u D. apply openCache_match.
      * intros r M. left. now rewrite openCache_match in M.
    + split; [| split].
      * right. right. exists response.
        repeat split; try assumption; discriminate.
      * intros u D. now apply putIn_other.
      * intros r M.
        destruct (P caches (CACHE_NAME ++ "-api") (url request) response)
          as [E | E]; rewrite E in M.
        -- injection M as <-. right.
           repeat split; intros; try assumption; discriminate.
        -- left. congruence.
  - destruct (storageMatch caches (url request)) as [hit |] eqn:H;
      cbn [fst snd];
      [split; [now left | split; [reflexivity | intros r M; left; congruence]] |].
    destruct (network (url request)) as [response |] eqn:N; cbn [fst snd];
      [| split; [now left |
                 split; [reflexivity | intros r M; left; congruence]]].
    destruct (Z.eqb_spec (status response) 200) as [S | S]; cbn [negb fst snd];
      [| split; [now left |
                 split; [reflexivity | intros r M; left; congruence]]].
    assert (ok response = true) as K by (unfold ok; rewrite S; reflexivity).
    assert (status response <> 206) as T by (rewrite S; discriminate).
    split; [| split].
    + right. right. exists response.
      repeat split; intros; try assumption; reflexivity.
    + intros u D. now apply putIn_other.
    + intros r M.
      destruct (P caches CACHE_NAME (url request) response) as [E | E];
        rewrite E in M.
      * injection M as <-. right. repeat split; intros; assumption.
      * left. congruence.
Qed.

Lemma static_filter_putIn_api (caches : CacheStorage) (u : string)
    (response : Response) :
  filter (fun entry => (fst entry =? CACHE_NAME)%string)
         (putIn caches apiCacheName u response)
  = filter (fun entry => (fst entry =? CACHE_NAME)%string) caches.
Proof.
  induction caches as [| [n c] rest IH]; cbn [putIn filter fst].
  - reflexivity.
  - destruct (String.eqb_spec n apiCacheName) as [-> | D]; cbn [filter fst].
    + reflexivity.
    + now rewrite IH.
Qed.

Lemma static_filter_openCache_api (caches : CacheStorage) :
  filter (fun entry => (fst entry =? CACHE_NAME)%string)
         (openCache caches apiCacheName)
  = filter (fun entry => (fst entry =? CACHE_NAME)%string) caches.
Proof.
  unfold openCache. destruct (existsb _ caches); [reflexivity |].
  rewrite filter_app. cbn. apply app_nil_r.
Qed.

Lemma storageMatch_static_none (caches : CacheStorage) (u : string) :
  (forall c, In (CACHE_NAME, c) caches -> cacheMatch c u = None) ->
  storageMatch (filter (fun entry => (fst entry =? CACHE_NAME)%string) caches) u
  = None.
Proof.
  induction caches as [| [n c] rest IH]; intros H; [reflexivity |].
  cbn [filter fst].
  destruct (String.eqb_spec n CACHE_NAME) as [-> | D]; cbn [storageMatch].
  - rewrite (H c (or_introl eq_refl)). apply IH.
    intros c' I. apply H. now right.
  - apply IH. intros c' I. apply H. now right.
Qed.

(** X27.  Activation discards the offline copies of API responses.  Let
    an API call be answered and stored, then let the worker activate,
    then let the same call be made with the network down: unless a cache
    named [dawn-patrol-v5] held the URL, the call is answered with
    [undefined]. *)
Theorem activation_drops_api_responses
    (network offline : string -> option Response)
    (caches : CacheStorage) (request : Request) :
  isApiCall (hostname request) = true ->
  offline (url request) = None ->
  (forall c, In (CACHE_NAME, c) caches -> cacheMatch c (url request) = None) ->
  fst (onFetch offline
         (onActivate (snd (onFetch network caches request))) request)
  = Resolved None.
Proof.
  intros A O H.
  assert (filter (fun entry => (fst entry =? CACHE_NAME)%string)
            (snd (onFetch network caches request))
          = filter (fun entry => (fst entry =? CACHE_NAME)%string) caches) as S.
  { unfold onFetch. rewrite A.
    destruct (network (url request)) as [response |]; [| reflexivity].
    cbn [snd]. destruct (ok response); [| reflexivity].
    destruct (status response =? 206);
      [apply static_filter_openCache_api | apply static_filter_putIn_api]. }
  rewrite onActivate_filter, S.
  unfold onFetch at 1. rewrite A, O. cbn [fst].
  now rewrite storageMatch_static_none.
Qed.

End WorkerFacts.

Lemma api_call_offline_fallback_witness :
  fst (Worker.onFetch offline
         (snd (Worker.onFetch online [] apiRequest)) apiRequest)
  = Worker.Resolved (Some okResponse).
Proof.
  apply (proj1 (proj2 (WorkerFacts.api_call_offline_fallback online offline []
                         apiRequest okResponse eq_refl eq_refl eq_refl
                         eq_refl))).
  - discriminate.
  - intros n c [].
Defined.

Lemma static_asset_cache_first_witness :
  Worker.onFetch offline (snd (Worker.onFetch online [] assetRequest))
    assetRequest
  = (Worker.Resolved (Some okResponse),
     snd (Worker.onFetch online [] assetRequest)).
Proof.
  apply (proj2 (proj2 (WorkerFacts.static_asset_cache_first online offline []
                         assetRequest okResponse eq_refl)
                      eq_refl eq_refl eq_refl)).
Defined.

Lemma activation_drops_api_responses_witness :
  fst (Worker.onFetch offline
         (Worker.onActivate (snd (Worker.onFetch online [] apiRequest)))
         apiRequest)
  = Worker.Resolved None.
Proof.
  apply (WorkerFacts.activation_drops_api_responses online offline []
           apiRequest eq_refl eq_refl
           (fun c (I : In (Worker.CACHE_NAME, c) []) => match I with end)).
Defined.

(** ** The local date string *)

Lemma below_cases (P : Z -> Prop) (n : nat) :
  (forall k, (k < n)%nat -> P (Z.of_nat k)) ->
  forall z, 0 <= z < Z.of_nat n -> P z.
Proof.
  intros H z B. rewrite <- (Z2Nat.id z) by lia. apply H. lia.
Qed.

Lemma two_digits (z : Z) :
  0 <= z < 32 ->
  String.length (padStart2 (ZtoString z)) = 2%nat
  /\ parseInt10 (Some (padStart2 (ZtoString z))) = Some z.
Proof.
  revert z. apply (below_cases _ 32). intros k K.
  do 32 (destruct k as [| k]; [split; reflexivity |]). lia.
Qed.

(** X28.  For a valid date, with a month from 0 to 11 and a day from 1
    to 31, [formatLocalDate] gives the year, the month counted from 1 and
    the day, joined by "-", with the month and the day always two
    characters wide; read back as decimal numbers they are the month plus
    one and the day.  An invalid date gives "NaN-NaN-NaN". *)
Theorem formatLocalDate_fields (year month day : Z) (hours : option Z) :
  0 <= month <= 11 -> 1 <= day <= 31 ->
  (exists mm dd,
     formatLocalDate (mkDate (Some year) (Some month) (Some day) hours)
     = ZtoString year ++ "-" ++ mm ++ "-" ++ dd
     /\ String.length mm = 2%nat /\ String.length dd = 2%nat
     /\ parseInt10 (Some mm) = Some (month + 1)
     /\ parseInt10 (Some dd) = Some day)
  /\ formatLocalDate (mkDate None None None None) = "NaN-NaN-NaN".
Proof.
  intros M D. split; [| reflexivity].
  destruct (two_digits (month + 1)) as [LM PM]; [lia |].
  destruct (two_digits day) as [LD PD]; [lia |].
  exists (padStart2 (ZtoString (month + 1))), (padStart2 (ZtoString day)).
  repeat split; assumption.
Qed.

Lemma formatLocalDate_fields_witness :
  exists mm dd,
    formatLocalDate (mkDate (Some 2024) (Some 1) (Some 7) (Some 6))
    = ZtoString 2024 ++ "-" ++ mm ++ "-" ++ dd
    /\ String.length mm = 2%nat /\ String.length dd = 2%nat
    /\ parseInt10 (Some mm) = Some (1 + 1)
    /\ parseInt10 (Some dd) = Some 7.
Proof.
  apply (proj1 (formatLocalDate_fields 2024 1 7 (Some 6)
                  ltac:(split; discriminate) ltac:(split; discriminate))).
Defined.
